(** * Cartesi machine emulator: machine state, RTC and HTIF device

    A shallow embedding of [machine-state.h], [rtc.h] and [htif.cpp].
    Unsigned 64-bit words are integers in [0, 2^64); the narrower C++
    types keep their wrap-around written out.  Code that threads the
    machine state, the HTIF object and the host console is written in a
    small state monad over [world]. *)

From Stdlib Require Import ZArith Bool List Lia.
Import ListNotations.
Local Open Scope Z_scope.

(** ** Fixed-width integers *)

Module Word.

Definition is_uint64 (z : Z) : Prop := 0 <= z < 2 ^ 64.

Definition to_uint64 (z : Z) : Z := z mod 2 ^ 64.
Definition to_uint32 (z : Z) : Z := z mod 2 ^ 32.
Definition to_uint8 (z : Z) : Z := z mod 2 ^ 8.

(** Conversion to a 32-bit two's complement [int]. *)
Definition to_int32 (z : Z) : Z := (z + 2 ^ 31) mod 2 ^ 32 - 2 ^ 31.

(** Integer to [bool] conversion: non-zero is [true]. *)
Definition to_bool (z : Z) : bool := negb (z =? 0).

(** [~x] on a 64-bit word. *)
Definition not64 (z : Z) : Z := Z.lxor z (2 ^ 64 - 1).

(** [a << k] evaluated in type [int]. *)
Definition int_shl (a k : Z) : Z := to_int32 (Z.shiftl a k).

End Word.
Import Word.

(** ** rtc.h *)

Definition RTC_FREQ_DIV : Z := 100.

Definition rtc_cycle_to_time (cycle : Z) : Z := cycle / RTC_FREQ_DIV.

Definition rtc_time_to_cycle (time : Z) : Z := to_uint64 (time * RTC_FREQ_DIV).

(** ** machine-state.h *)

(** The unpacked [iflags] of [machine_state]: [PRV] is a [uint8_t]. *)
Record iflags_t : Type := mk_iflags {
  iflags_PRV : Z;
  iflags_I : bool;
  iflags_H : bool
}.

Record clint_t : Type := mk_clint {
  mtimecmp : Z
}.

Record htif_regs : Type := mk_htif_regs {
  tohost : Z;
  fromhost : Z
}.

(** The fields of [machine_state] that the code below reads or writes. *)
Record machine_state : Type := mk_machine_state {
  mcycle : Z;
  mie : Z;
  mip : Z;
  iflags : iflags_t;
  clint : clint_t;
  htif : htif_regs;
  brk : bool
}.

Definition with_brk (b : bool) (s : machine_state) : machine_state :=
  mk_machine_state (mcycle s) (mie s) (mip s) (iflags s) (clint s) (htif s) b.

Definition with_iflags (f : iflags_t) (s : machine_state) : machine_state :=
  mk_machine_state (mcycle s) (mie s) (mip s) f (clint s) (htif s) (brk s).

Definition with_htif (h : htif_regs) (s : machine_state) : machine_state :=
  mk_machine_state (mcycle s) (mie s) (mip s) (iflags s) (clint s) h (brk s).

(** [brk = mip & mie;] *)
Definition set_brk_from_mip_mie (s : machine_state) : machine_state :=
  with_brk (to_bool (Z.land (mip s) (mie s))) s.

(** [brk = iflags.H;] *)
Definition set_brk_from_iflags_H (s : machine_state) : machine_state :=
  with_brk (iflags_H (iflags s)) s.

(** ** The HTIF object and the host console *)

(** The data members of class [htif] (the terminal descriptor and saved
    [termios] play no part below).  The class is declared in [htif.h];
    the elements of [m_buf] are taken as bytes in [0, 256), which is how
    the specification reads them ([(1<<56)|byte]).  The buffer indices
    and the divisor counter are plain integers: from a constructed
    object the code keeps them between 0 and the buffer size or the
    divisor. *)
Record htif_t : Type := mk_htif {
  m_interactive : bool;
  m_buf : list Z;
  m_buf_pos : Z;
  m_buf_len : Z;
  m_fromhost_pending : bool;
  m_divisor_counter : Z
}.

Definition with_buf (b : list Z) (d : htif_t) : htif_t :=
  mk_htif (m_interactive d) b (m_buf_pos d) (m_buf_len d)
          (m_fromhost_pending d) (m_divisor_counter d).

Definition with_buf_pos (p : Z) (d : htif_t) : htif_t :=
  mk_htif (m_interactive d) (m_buf d) p (m_buf_len d)
          (m_fromhost_pending d) (m_divisor_counter d).

Definition with_buf_len (n : Z) (d : htif_t) : htif_t :=
  mk_htif (m_interactive d) (m_buf d) (m_buf_pos d) n
          (m_fromhost_pending d) (m_divisor_counter d).

Definition with_fromhost_pending (b : bool) (d : htif_t) : htif_t :=
  mk_htif (m_interactive d) (m_buf d) (m_buf_pos d) (m_buf_len d)
          b (m_divisor_counter d).

Definition with_divisor_counter (c : Z) (d : htif_t) : htif_t :=
  mk_htif (m_interactive d) (m_buf d) (m_buf_pos d) (m_buf_len d)
          (m_fromhost_pending d) c.

(** What the host's standard input does at the next [select]:
    nothing to read, or readable with the bytes the following [read]
    hands over (none for end of file or an error). *)
Inductive stdin_event : Type :=
| stdin_idle
| stdin_ready (data : list Z).

(** The host side of the console: the bytes written to standard output
    so far, oldest first, and the future of standard input; what the
    coming [write] calls on standard output do, in order ([true] takes
    the byte, [false] fails and writes nothing; past the end of the
    list a write succeeds); and whether a [read] that hands over no
    byte reports an error ([-1]) rather than the end of the file
    ([0]). *)
Record host_t : Type := mk_host {
  stdout : list Z;
  stdin : list stdin_event;
  write_results : list bool;
  read_fails : bool
}.

(** Everything the HTIF code can touch.  [console_polls] counts the
    calls of [htif::poll_console]; it is instrumentation and has no
    counterpart in the source. *)
Record world : Type := mk_world {
  state : machine_state;
  dev : htif_t;
  host : host_t;
  console_polls : nat
}.

(** ** A state monad over [world] *)

Definition M (A : Type) : Type := world -> A * world.

Definition ret {A : Type} (a : A) : M A := fun w => (a, w).

Definition bind {A B : Type} (c : M A) (k : A -> M B) : M B :=
  fun w => let (a, w') := c w in k a w'.

Declare Scope htif_scope.
Delimit Scope htif_scope with htif.
Notation "x <- c ;; k" := (bind c (fun x => k))
  (at level 61, c at next level, right associativity) : htif_scope.
Notation "c ;; k" := (bind c (fun _ => k))
  (at level 61, right associativity) : htif_scope.
Local Open Scope htif_scope.

Definition exec {A : Type} (c : M A) (w : world) : world := snd (c w).
Definition eval {A : Type} (c : M A) (w : world) : A := fst (c w).

Definition get_state : M machine_state := fun w => (state w, w).
Definition put_state (s : machine_state) : M unit :=
  fun w => (tt, mk_world s (dev w) (host w) (console_polls w)).
Definition get_dev : M htif_t := fun w => (dev w, w).
Definition put_dev (d : htif_t) : M unit :=
  fun w => (tt, mk_world (state w) d (host w) (console_polls w)).
Definition modify_dev (f : htif_t -> htif_t) : M unit :=
  fun w => (tt, mk_world (state w) (f (dev w)) (host w) (console_polls w)).
Definition get_host : M host_t := fun w => (host w, w).
Definition put_host (h : host_t) : M unit :=
  fun w => (tt, mk_world (state w) (dev w) h (console_polls w)).
Definition count_console_poll : M unit :=
  fun w => (tt, mk_world (state w) (dev w) (host w) (S (console_polls w))).

(** *** State access *)

(** Modelled from the spec: the accessors of [i_virtual_state_access]
    and [machine] ([read_htif_tohost], [write_htif_tohost],
    [read_htif_fromhost], [write_htif_fromhost], [set_iflags_H]) are
    declared in headers whose bodies are not part of these sources.
    They read and write the like-named fields of [machine_state];
    setting [iflags.H] also updates [brk], as every change of a break
    condition does. *)
Definition read_htif_tohost : M Z :=
  s <- get_state ;; ret (tohost (htif s)).

Definition write_htif_tohost (val : Z) : M unit :=
  s <- get_state ;;
  put_state (with_htif (mk_htif_regs val (fromhost (htif s))) s).

Definition read_htif_fromhost : M Z :=
  s <- get_state ;; ret (fromhost (htif s)).

Definition write_htif_fromhost (val : Z) : M unit :=
  s <- get_state ;;
  put_state (with_htif (mk_htif_regs (tohost (htif s)) val) s).

Definition set_iflags_H : M unit :=
  s <- get_state ;;
  put_state
    (set_brk_from_iflags_H
       (with_iflags
          (mk_iflags (iflags_PRV (iflags s)) (iflags_I (iflags s)) true) s)).

(** *** Host calls *)

(** [write(STDOUT_FILENO, &ch, 1)]: returns 1 with the byte written,
    or [-1] with nothing written. *)
Definition host_write_stdout (ch : Z) : M Z :=
  h <- get_host ;;
  if hd true (write_results h) then
    put_host (mk_host (stdout h ++ [ch]) (stdin h)
                      (tl (write_results h)) (read_fails h)) ;;
    ret 1
  else
    put_host (mk_host (stdout h) (stdin h)
                      (tl (write_results h)) (read_fails h)) ;;
    ret (-1).

(** [select] on standard input with a zero timeout, followed by
    [FD_ISSET]. *)
Definition host_select_stdin : M bool :=
  h <- get_host ;;
  match stdin h with
  | [] => ret false
  | stdin_idle :: rest =>
      put_host (mk_host (stdout h) rest (write_results h) (read_fails h)) ;;
      ret false
  | stdin_ready _ :: _ => ret true
  end.

(** [read(STDIN_FILENO, m_buf, count)]: stores what it read at the
    start of [m_buf] and returns its length; with no byte to hand over
    it returns 0 at the end of the file and [-1] on an error. *)
Definition host_read_stdin (count : Z) : M Z :=
  h <- get_host ;;
  match stdin h with
  | stdin_ready data :: rest =>
      let got := firstn (Z.to_nat count) data in
      let left := skipn (Z.to_nat count) data in
      put_host (mk_host (stdout h)
                  (match left with
                   | [] => rest
                   | _ :: _ => stdin_ready left :: rest
                   end)
                  (write_results h) (read_fails h)) ;;
      modify_dev (fun d => with_buf (got ++ skipn (length got) (m_buf d)) d) ;;
      ret (match got with
           | [] => if read_fails h then -1 else 0
           | _ :: _ => Z.of_nat (length got)
           end)
  | _ => ret (-1)
  end.

(** [a[i] = x] on an array held as a list. *)
Fixpoint store_at {A : Type} (i : nat) (x : A) (l : list A) : list A :=
  match l, i with
  | [], _ => []
  | _ :: t, O => x :: t
  | y :: t, S j => y :: store_at j x t
  end.

(** *** Pages *)

(** The [n] low bytes of [v], least significant first. *)
Fixpoint le_bytes (n : nat) (v : Z) : list Z :=
  match n with
  | O => []
  | S k => v mod 256 :: le_bytes k (v / 256)
  end.

(** The word whose little-endian bytes are [l]. *)
Fixpoint le_word (l : list Z) : Z :=
  match l with
  | [] => 0
  | b :: t => b + 256 * le_word t
  end.

(** [memset(p, 0, n)]. *)
Definition memset_zero (n : Z) (p : list Z) : list Z :=
  repeat 0 (Z.to_nat n) ++ skipn (Z.to_nat n) p.

(** Modelled from the spec: [aliased_aligned_write<uint64_t>] comes
    from [strict-aliasing.h]; it stores the eight bytes of the word at
    the given offset, and the HTIF words are little-endian. *)
Definition aliased_aligned_write_u64 (p : list Z) (off : Z) (v : Z) : list Z :=
  firstn (Z.to_nat off) p ++ le_bytes 8 v ++ skipn (Z.to_nat off + 8) p.

(** Modelled from the spec: [htif::csr] is declared in [htif.h]; the
    relative addresses are [tohost = 0] and [fromhost = 8]. *)
Definition HTIF_TOHOST_REL_ADDR : Z := 0.
Definition HTIF_FROMHOST_REL_ADDR : Z := 8.

(** A concrete choice of the constants that headers outside these
    sources define ([riscv-constants.h], [htif.h], [pma.h]); the
    development below is parametric in them, and the concrete runs at
    the end use this choice. *)
Module Sample.
Definition IFLAGS_H_SHIFT : Z := 0.
Definition IFLAGS_I_SHIFT : Z := 1.
Definition IFLAGS_PRV_SHIFT : Z := 2.
Definition HTIF_INTERACT_DIVISOR : Z := 10.
Definition HTIF_CONSOLE_BUF_SIZE : Z := 1024.
Definition PMA_PAGE_SIZE : Z := 4096.
End Sample.

Ltac closed_u64 := vm_compute; split; [discriminate|reflexivity].

Section Constants.

(** The bit positions of the [iflags] fields come from
    [riscv-constants.h]; they are parameters here. *)
Variables IFLAGS_H_SHIFT IFLAGS_I_SHIFT IFLAGS_PRV_SHIFT : Z.

(** [packed_iflags(int PRV, int I, int H)]: the expression is evaluated
    in [int] and converted to [uint64_t] on return. *)
Definition packed_iflags (PRV I H : Z) : Z :=
  to_uint64
    (Z.lor (Z.lor (int_shl PRV IFLAGS_PRV_SHIFT) (int_shl I IFLAGS_I_SHIFT))
           (int_shl H IFLAGS_H_SHIFT)).

Definition read_iflags (s : machine_state) : Z :=
  packed_iflags (iflags_PRV (iflags s))
                (Z.b2z (iflags_I (iflags s)))
                (Z.b2z (iflags_H (iflags s))).

Definition write_iflags (s : machine_state) (val : Z) : machine_state :=
  let h := to_bool (Z.land (Z.shiftr val IFLAGS_H_SHIFT) 1) in
  let i := to_bool (Z.land (Z.shiftr val IFLAGS_I_SHIFT) 1) in
  let prv := to_uint8 (Z.land (Z.shiftr val IFLAGS_PRV_SHIFT) 3) in
  with_iflags (mk_iflags prv i h) s.

(** The bits of the packed register that carry a field. *)
Definition iflags_mask : Z :=
  Z.lor (Z.lor (Z.shiftl 3 IFLAGS_PRV_SHIFT) (Z.shiftl 1 IFLAGS_I_SHIFT))
        (Z.shiftl 1 IFLAGS_H_SHIFT).

(** ** htif.cpp *)

(** [HTIF_INTERACT_DIVISOR] and the size of [m_buf] come from [htif.h],
    [PMA_PAGE_SIZE] from [pma.h]. *)
Variables HTIF_INTERACT_DIVISOR HTIF_CONSOLE_BUF_SIZE PMA_PAGE_SIZE : Z.

Definition reset_fromhost_pending : M unit :=
  modify_dev (with_fromhost_pending false).

Definition is_interactive : M bool :=
  d <- get_dev ;; ret (m_interactive d).

(** The block of [poll_console] that runs when the buffer holds no
    unread character: try to obtain more. *)
Definition poll_console_fill : M unit :=
  ready <- host_select_stdin ;;
  if ready then
    modify_dev (with_buf_pos 0) ;;
    n <- host_read_stdin HTIF_CONSOLE_BUF_SIZE ;;
    modify_dev (with_buf_len n) ;;
    if n <=? 0 then
      modify_dev (with_buf_len 1) ;;
      modify_dev (fun d => with_buf (store_at 0 4 (m_buf d)) d)
    else ret tt
  else ret tt.

(** The block of [poll_console] that hands one buffered character to
    the machine, if there is one. *)
Definition poll_console_deliver : M unit :=
  d <- get_dev ;;
  if m_buf_pos d <? m_buf_len d then
    write_htif_fromhost
      (Z.lor (Z.lor (Z.shiftl 1 56) (Z.shiftl 0 48))
             (nth (Z.to_nat (m_buf_pos d)) (m_buf d) 0)) ;;
    modify_dev (with_buf_pos (m_buf_pos d + 1)) ;;
    modify_dev (with_fromhost_pending true)
  else ret tt.

Definition poll_console : M unit :=
  count_console_poll ;;
  d <- get_dev ;;
  if negb (m_fromhost_pending d) then
    (if m_buf_len d <=? m_buf_pos d then poll_console_fill else ret tt) ;;
    poll_console_deliver
  else ret tt.

Definition interact : M unit :=
  d <- get_dev ;;
  if m_interactive d then
    modify_dev (with_divisor_counter (m_divisor_counter d + 1)) ;;
    if HTIF_INTERACT_DIVISOR <=? m_divisor_counter d + 1 then
      modify_dev (with_divisor_counter 0) ;;
      poll_console
    else ret tt
  else ret tt.

(** The read callback: [Some v] stands for [true] with [*pval = v],
    [None] for [false]. *)
Definition htif_read (offset : Z) (size_log2 : Z) : M (option Z) :=
  if negb (size_log2 =? 3) || to_bool (Z.land offset 7) then ret None
  else if offset =? HTIF_TOHOST_REL_ADDR then
    v <- read_htif_tohost ;; ret (Some v)
  else if offset =? HTIF_FROMHOST_REL_ADDR then
    v <- read_htif_fromhost ;; ret (Some v)
  else ret None.

(** The outcome of the peek callback: the returned flag and
    [*page_data], which is either [nullptr] or [scratch] with the
    contents it was given. *)
Inductive page_data_t : Type :=
| page_nullptr
| page_scratch (bytes : list Z).

Definition htif_peek (pma_length : Z) (s : machine_state)
    (page_offset : Z) (scratch : list Z) : bool * page_data_t :=
  if negb (page_offset mod PMA_PAGE_SIZE =? 0) || (pma_length <=? page_offset)
  then (false, page_nullptr)
  else if negb (page_offset =? 0) then (true, page_nullptr)
  else
    let scratch := memset_zero PMA_PAGE_SIZE scratch in
    let scratch :=
      aliased_aligned_write_u64 scratch HTIF_TOHOST_REL_ADDR (tohost (htif s)) in
    let scratch :=
      aliased_aligned_write_u64 scratch HTIF_FROMHOST_REL_ADDR (fromhost (htif s)) in
    (true, page_scratch scratch).

Definition htif_write_getchar (payload : Z) : M bool :=
  write_htif_tohost 0 ;;
  ret true.

Definition htif_write_putchar (payload : Z) : M bool :=
  write_htif_tohost 0 ;;
  let ch := to_uint8 (Z.land payload 255) in
  r <- host_write_stdout ch ;;
  (if r <? 1 then ret tt else ret tt) ;;
  write_htif_fromhost (Z.lor (Z.shiftl 1 56) (Z.shiftl 1 48)) ;;
  ret true.

Definition htif_write_halt (payload : Z) : M bool :=
  set_iflags_H ;;
  ret true.

(** The fields of a [tohost] word, as [htif_write_tohost] decodes
    them. *)
Definition tohost_device (tohost : Z) : Z := to_uint32 (Z.shiftr tohost 56).
Definition tohost_cmd (tohost : Z) : Z :=
  to_uint32 (Z.land (Z.shiftr tohost 48) 255).
Definition tohost_payload (tohost : Z) : Z :=
  Z.land tohost (Z.shiftr (not64 1) 16).

Definition htif_write_tohost (tohost : Z) : M bool :=
  let device := tohost_device tohost in
  let cmd := tohost_cmd tohost in
  let payload := tohost_payload tohost in
  write_htif_tohost tohost ;;
  if (device =? 0) && (cmd =? 0) && to_bool (Z.land payload 1) then
    htif_write_halt payload
  else if (device =? 1) && (cmd =? 1) then
    htif_write_putchar payload
  else if (device =? 1) && (cmd =? 0) then
    htif_write_getchar payload
  else ret true.

Definition htif_write_fromhost (val : Z) : M bool :=
  write_htif_fromhost val ;;
  i <- is_interactive ;;
  (if i then reset_fromhost_pending ;; poll_console else ret tt) ;;
  ret true.

Definition htif_write (offset : Z) (val : Z) (size_log2 : Z) : M bool :=
  if negb (size_log2 =? 3) || to_bool (Z.land offset 7) then ret false
  else if offset =? HTIF_TOHOST_REL_ADDR then htif_write_tohost val
  else if offset =? HTIF_FROMHOST_REL_ADDR then htif_write_fromhost val
  else ret false.

(** Modelled from the spec: the CLINT read of [mtime] lives in
    [clint.cpp]; it returns [rtc_cycle_to_time(mcycle)]. *)
Definition read_clint_mtime (s : machine_state) : Z :=
  rtc_cycle_to_time (mcycle s).

(** The break condition of the specification, for given values of the
    [Y] and [X] flags (which this [machine_state] does not have). *)
Definition break_condition (s : machine_state) (Y X : bool) : Prop :=
  Z.land (mip s) (mie s) <> 0 \/ iflags_H (iflags s) = true \/
  Y = true \/ X = true.

(** A halted machine with no interrupt pending, and a running one with
    the machine timer interrupt pending and enabled. *)
Definition halted_state : machine_state :=
  mk_machine_state 0 0 0 (mk_iflags 3 false true) (mk_clint 0)
                   (mk_htif_regs 1 0) true.

Definition timer_pending_state : machine_state :=
  mk_machine_state 1000 128 128 (mk_iflags 3 false false) (mk_clint 10)
                   (mk_htif_regs 0 0) true.

(** Bits [hi..lo] of a word, read arithmetically; the HTIF fields of the
    specification are [word_bits v 63 56] (device), [word_bits v 55 48]
    (cmd) and [word_bits v 47 0] (payload). *)
Definition word_bits (v hi lo : Z) : Z := (v / 2 ^ lo) mod 2 ^ (hi - lo + 1).

(** A freshly built machine with a non-interactive HTIF, and the same
    machine with an interactive HTIF whose standard input has the two
    bytes of "hi" ready. *)
Definition boot_state : machine_state :=
  mk_machine_state 0 0 0 (mk_iflags 3 false false) (mk_clint 0)
                   (mk_htif_regs 0 0) false.

Definition boot_world : world :=
  mk_world boot_state (mk_htif false [0; 0; 0; 0] 0 0 false 0)
           (mk_host [] [] [] false) 0.

Definition console_world : world :=
  mk_world boot_state (mk_htif true [0; 0; 0; 0] 0 0 false 0)
           (mk_host [] [stdin_ready [104; 105]] [] false) 0.

(** [n] consecutive calls of [htif::interact]. *)
Definition interact_n (n : nat) (w : world) : world :=
  Nat.iter n (exec interact) w.

(** Call number [k] (counting from 0) of a run of consecutive
    [interact] calls started in [w] ran the console poll. *)
Definition polls_at (w : world) (k : nat) : Prop :=
  console_polls (interact_n (S k) w) = S (console_polls (interact_n k w)).

(** What a part of the console poll leaves alone: everything but the
    input side of the console and [fromhost]. *)
Definition poll_frame (w w' : world) : Prop :=
  m_interactive (dev w') = m_interactive (dev w) /\
  m_divisor_counter (dev w') = m_divisor_counter (dev w) /\
  console_polls w' = console_polls w /\
  stdout (host w') = stdout (host w) /\
  tohost (htif (state w')) = tohost (htif (state w)) /\
  iflags (state w') = iflags (state w) /\
  brk (state w') = brk (state w).

(** ** Further code of the same files *)

(** *** The TLBs of [machine_state] *)

(** A TLB entry; the two pointers are [None] for [nullptr], the PMA
    being named by its index. *)
Record tlb_entry : Type := mk_tlb_entry {
  tlb_pma : option nat;
  paddr_page : Z;
  vaddr_page : Z;
  hpage : option Z
}.

Definition TLB_SIZE : nat := 256.

(** The three TLB arrays of [machine_state]. *)
Record tlbs_t : Type := mk_tlbs {
  tlb_read : list tlb_entry;
  tlb_write : list tlb_entry;
  tlb_code : list tlb_entry
}.

(** What [init_tlb] stores in an entry: null pointers and
    [UINT64_C(-1)] pages. *)
Definition invalid_tlb_entry : tlb_entry :=
  mk_tlb_entry None (to_uint64 (-1)) (to_uint64 (-1)) None.

(** The body of the loop of [init_tlb] at index [i]. *)
Definition init_tlb_at (t : tlbs_t) (i : nat) : tlbs_t :=
  mk_tlbs (store_at i invalid_tlb_entry (tlb_read t))
          (store_at i invalid_tlb_entry (tlb_write t))
          (store_at i invalid_tlb_entry (tlb_code t)).

(** [for (int i = 0; i < TLB_SIZE; ++i) ...] *)
Definition init_tlb (t : tlbs_t) : tlbs_t :=
  fold_left init_tlb_at (seq 0 TLB_SIZE) t.

(** *** The HTIF object from its constructor *)

(** [htif::htif(machine &m, bool i)]: the buffer is zeroed, nothing is
    buffered or pending and the divisor counter starts at 0. *)
Definition htif_new (i : bool) : htif_t :=
  mk_htif i (repeat 0 (Z.to_nat HTIF_CONSOLE_BUF_SIZE)) 0 0 false 0.

(** The buffer indices are inside the buffer, which has its declared
    size. *)
Definition buf_inv (d : htif_t) : Prop :=
  length (m_buf d) = Z.to_nat HTIF_CONSOLE_BUF_SIZE /\
  0 <= m_buf_pos d <= m_buf_len d /\
  m_buf_len d <= HTIF_CONSOLE_BUF_SIZE.

(** *** Sequences of device operations *)

(** What can be done to the HTIF from outside: the two driver
    callbacks and [htif::interact]. *)
Inductive htif_op : Type :=
| op_read (offset size_log2 : Z)
| op_write (offset val size_log2 : Z)
| op_interact.

Definition run_op (w : world) (o : htif_op) : world :=
  match o with
  | op_read offset size_log2 => exec (htif_read offset size_log2) w
  | op_write offset val size_log2 => exec (htif_write offset val size_log2) w
  | op_interact => exec interact w
  end.

Definition run_ops (ops : list htif_op) (w : world) : world :=
  fold_left run_op ops w.

(** The guest writes each word of [vs] to [tohost], in order. *)
Definition write_tohost_all (vs : list Z) (w : world) : world :=
  fold_left (fun w v => exec (htif_write_tohost v) w) vs w.

(** The guest writes each word of [vs] to [fromhost], in order. *)
Definition write_fromhost_all (vs : list Z) (w : world) : world :=
  fold_left (fun w v => exec (htif_write_fromhost v) w) vs w.

(** The word [poll_console] hands over for byte [b]. *)
Definition getchar_word (b : Z) : Z :=
  Z.lor (Z.lor (Z.shiftl 1 56) (Z.shiftl 0 48)) b.

(** What no sequence of HTIF operations undoes or touches: the cycle
    counter, the interrupt registers, the CLINT, the privilege level and
    the idle flag stay as they are; a set [H] flag and a set [brk] stay
    set; the HTIF stays interactive or not; standard output only
    grows. *)
Definition ops_frame (w w' : world) : Prop :=
  mcycle (state w') = mcycle (state w) /\
  mie (state w') = mie (state w) /\
  mip (state w') = mip (state w) /\
  clint (state w') = clint (state w) /\
  iflags_PRV (iflags (state w')) = iflags_PRV (iflags (state w)) /\
  iflags_I (iflags (state w')) = iflags_I (iflags (state w)) /\
  (iflags_H (iflags (state w)) = true ->
   iflags_H (iflags (state w')) = true) /\
  (brk (state w) = true -> brk (state w') = true) /\
  m_interactive (dev w') = m_interactive (dev w) /\
  (exists out, stdout (host w') = stdout (host w) ++ out).

(** The bytes of [bs] that reach standard output when they are written
    one [write] each and the writes end as [results] says, a write past
    the end of [results] succeeding. *)
Fixpoint accepted_bytes (results : list bool) (bs : list Z) : list Z :=
  match bs with
  | [] => []
  | b :: bs' =>
      (if hd true results then [b] else [])
      ++ accepted_bytes (tl results) bs'
  end.

(** A [tohost] word whose device and cmd fields both read 1. *)
Definition is_putchar_word (v : Z) : bool :=
  (word_bits v 63 56 =? 1) && (word_bits v 55 48 =? 1).

(** Worlds for the concrete runs: an interactive console with one
    character delivered and one still buffered, before and after the
    guest's acknowledgement; one whose standard input is at its end;
    a halted machine; TLBs full of live entries. *)
Definition pending_world : world :=
  mk_world boot_state (mk_htif true [104; 105; 0; 0] 1 2 true 0)
           (mk_host [] [stdin_ready [106]] [] false) 0.

Definition buffered_world : world :=
  mk_world boot_state (mk_htif true [104; 105; 0; 0] 1 2 false 0)
           (mk_host [] [stdin_ready [106]] [] false) 0.

Definition eof_world : world :=
  mk_world boot_state (mk_htif true [0; 0; 0; 0] 0 0 false 0)
           (mk_host [] [stdin_ready []] [] false) 0.

(** A console whose standard input is readable but whose [read]
    fails. *)
Definition failing_stdin_world : world :=
  mk_world boot_state (mk_htif true [0; 0; 0; 0] 0 0 false 0)
           (mk_host [] [stdin_ready []] [] true) 0.

(** A machine whose standard output refuses the next write (a full
    device, say). *)
Definition full_stdout_world : world :=
  mk_world boot_state (mk_htif false [0; 0; 0; 0] 0 0 false 0)
           (mk_host [] [] [false] false) 0.

(** A machine whose standard output refuses the first write and takes
    the second. *)
Definition flaky_stdout_world : world :=
  mk_world boot_state (mk_htif false [0; 0; 0; 0] 0 0 false 0)
           (mk_host [] [] [false; true] false) 0.

Definition halted_world : world :=
  mk_world halted_state (mk_htif false [0; 0; 0; 0] 0 0 false 0)
           (mk_host [] [] [] false) 0.

Definition live_tlbs : tlbs_t :=
  mk_tlbs (repeat (mk_tlb_entry (Some 0%nat) 4096 8192 (Some 0)) TLB_SIZE)
          (repeat (mk_tlb_entry (Some 1%nat) 4096 8192 (Some 0)) TLB_SIZE)
          (repeat (mk_tlb_entry (Some 2%nat) 4096 8192 (Some 0)) TLB_SIZE).

(** * Properties *)

(** ** Bit-level facts *)

Lemma to_bool_true_iff (z : Z) : to_bool z = true <-> z <> 0.
Proof.
  unfold to_bool. rewrite negb_true_iff, Z.eqb_neq. tauto.
Qed.

Lemma to_int32_small (z : Z) : 0 <= z < 2 ^ 31 -> to_int32 z = z.
Proof.
  intros Hz. unfold to_int32. rewrite Z.mod_small; lia.
Qed.

Lemma land_lt_pow2 (a b n : Z) :
  0 <= n -> 0 <= b < 2 ^ n -> 0 <= Z.land a b < 2 ^ n.
Proof.
  intros Hn Hb.
  assert (E : Z.land a b = Z.land a b mod 2 ^ n).
  { rewrite <- Z.land_ones by assumption.
    rewrite <- Z.land_assoc. f_equal.
    rewrite Z.land_ones by assumption. rewrite Z.mod_small; lia. }
  rewrite E. apply Z.mod_pos_bound. lia.
Qed.

Lemma lor_lt_pow2 (a b n : Z) :
  0 <= a < 2 ^ n -> 0 <= b < 2 ^ n -> 0 <= Z.lor a b < 2 ^ n.
Proof.
  intros Ha Hb. split.
  - apply Z.lor_nonneg. lia.
  - destruct (Z.eq_dec a 0) as [->|Na]; [rewrite Z.lor_0_l; lia|].
    destruct (Z.eq_dec b 0) as [->|Nb]; [rewrite Z.lor_0_r; lia|].
    assert (Hor : 0 < Z.lor a b).
    { assert (0 <= Z.lor a b) by (apply Z.lor_nonneg; lia).
      assert (Z.lor a b <> 0) by (rewrite Z.lor_eq_0_iff; tauto).
      lia. }
    apply Z.log2_lt_pow2; [assumption|].
    rewrite Z.log2_lor by lia.
    apply Z.max_lub_lt; apply Z.log2_lt_pow2; lia.
Qed.

(** Extracting a field and putting it back is masking in place. *)
Lemma shiftl_land_shiftr (v m k : Z) :
  0 <= k -> Z.shiftl (Z.land (Z.shiftr v k) m) k = Z.land v (Z.shiftl m k).
Proof.
  intros Hk. apply Z.bits_inj'. intros n Hn.
  rewrite Z.land_spec.
  destruct (Z.lt_ge_cases n k) as [Hlt|Hge].
  - rewrite !Z.shiftl_spec_low by assumption.
    now rewrite andb_false_r.
  - rewrite !Z.shiftl_spec by assumption.
    rewrite Z.land_spec, Z.shiftr_spec by lia.
    now replace (n - k + k) with n by lia.
Qed.

(** A field read through a mask that covers it is the field. *)
Lemma land_shiftr_covered (v M m k : Z) :
  Z.land (Z.shiftr M k) m = m ->
  Z.land (Z.shiftr (Z.land v M) k) m = Z.land (Z.shiftr v k) m.
Proof.
  intros HM. rewrite Z.shiftr_land, <- Z.land_assoc. now rewrite HM.
Qed.

Lemma land_lor_absorb (a b : Z) : Z.land (Z.lor a b) b = b.
Proof.
  apply Z.bits_inj'. intros n _.
  rewrite Z.land_spec, Z.lor_spec.
  destruct (Z.testbit a n), (Z.testbit b n); reflexivity.
Qed.

Lemma land_lor_absorb_l (a b c : Z) :
  Z.land a c = c -> Z.land (Z.lor a b) c = c.
Proof.
  intros Hc. rewrite Z.land_lor_distr_l, Hc.
  apply Z.bits_inj'. intros n _.
  rewrite Z.lor_spec, Z.land_spec.
  destruct (Z.testbit b n), (Z.testbit c n); reflexivity.
Qed.

Lemma shiftl_lt_pow2 (m k a n : Z) :
  0 <= k -> 0 <= m < 2 ^ a -> 0 <= a -> a + k <= n ->
  0 <= Z.shiftl m k < 2 ^ n.
Proof.
  intros Hk Hm Ha Hn. rewrite Z.shiftl_mul_pow2 by assumption.
  assert (0 < 2 ^ k) by (apply Z.pow_pos_nonneg; lia).
  assert (2 ^ (a + k) <= 2 ^ n) by (apply Z.pow_le_mono_r; lia).
  rewrite Z.pow_add_r in * by lia. nia.
Qed.

Lemma land_1_cases (z : Z) : Z.land z 1 = 0 \/ Z.land z 1 = 1.
Proof.
  pose proof (land_lt_pow2 z 1 1). lia.
Qed.

Lemma to_bool_land_1_odd (p : Z) : to_bool (Z.land p 1) = Z.odd p.
Proof.
  change 1 with (Z.ones 1) at 1. rewrite Z.land_ones by lia.
  change (2 ^ 1) with 2. rewrite Zmod_odd. unfold to_bool.
  destruct (Z.odd p); reflexivity.
Qed.

Lemma b2z_to_bool_land_1 (z : Z) : Z.b2z (to_bool (Z.land z 1)) = Z.land z 1.
Proof.
  destruct (land_1_cases z) as [E|E]; rewrite E; reflexivity.
Qed.

(** ** The packed [iflags] register *)

Lemma iflags_mask_bounds :
  0 <= IFLAGS_H_SHIFT <= 30 -> 0 <= IFLAGS_I_SHIFT <= 30 ->
  0 <= IFLAGS_PRV_SHIFT <= 29 ->
  0 <= iflags_mask < 2 ^ 31.
Proof.
  intros Hh Hi Hp. unfold iflags_mask.
  repeat apply lor_lt_pow2.
  - apply (shiftl_lt_pow2 3 IFLAGS_PRV_SHIFT 2); lia.
  - apply (shiftl_lt_pow2 1 IFLAGS_I_SHIFT 1); lia.
  - apply (shiftl_lt_pow2 1 IFLAGS_H_SHIFT 1); lia.
Qed.

(** Packing fields that were cut out of [v] gives [v] under the mask. *)
Lemma packed_iflags_of_fields (v : Z) :
  0 <= IFLAGS_H_SHIFT <= 30 -> 0 <= IFLAGS_I_SHIFT <= 30 ->
  0 <= IFLAGS_PRV_SHIFT <= 29 ->
  packed_iflags (Z.land (Z.shiftr v IFLAGS_PRV_SHIFT) 3)
                (Z.land (Z.shiftr v IFLAGS_I_SHIFT) 1)
                (Z.land (Z.shiftr v IFLAGS_H_SHIFT) 1)
  = Z.land v iflags_mask.
Proof.
  intros Hh Hi Hp. unfold packed_iflags, int_shl.
  rewrite !shiftl_land_shiftr by lia.
  assert (Bp : 0 <= Z.land v (Z.shiftl 3 IFLAGS_PRV_SHIFT) < 2 ^ 31).
  { apply land_lt_pow2; [lia|].
    apply (shiftl_lt_pow2 3 IFLAGS_PRV_SHIFT 2); lia. }
  assert (Bi : 0 <= Z.land v (Z.shiftl 1 IFLAGS_I_SHIFT) < 2 ^ 31).
  { apply land_lt_pow2; [lia|].
    apply (shiftl_lt_pow2 1 IFLAGS_I_SHIFT 1); lia. }
  assert (Bh : 0 <= Z.land v (Z.shiftl 1 IFLAGS_H_SHIFT) < 2 ^ 31).
  { apply land_lt_pow2; [lia|].
    apply (shiftl_lt_pow2 1 IFLAGS_H_SHIFT 1); lia. }
  rewrite !to_int32_small by assumption.
  rewrite <- !Z.land_lor_distr_r. fold iflags_mask.
  unfold to_uint64. apply Z.mod_small.
  pose proof (land_lt_pow2 v iflags_mask 31 ltac:(lia)
                (iflags_mask_bounds Hh Hi Hp)).
  lia.
Qed.

Lemma to_uint8_land_3 (z : Z) : to_uint8 (Z.land z 3) = Z.land z 3.
Proof.
  unfold to_uint8. apply Z.mod_small.
  assert (B : 0 <= Z.land z 3 < 2 ^ 2).
  { apply land_lt_pow2; [lia|]. change (2 ^ 2) with 4. lia. }
  change (2 ^ 2) with 4 in B. change (2 ^ 8) with 256. lia.
Qed.

Lemma iflags_mask_covers_H :
  0 <= IFLAGS_H_SHIFT ->
  Z.land (Z.shiftr iflags_mask IFLAGS_H_SHIFT) 1 = 1.
Proof.
  intros Hh. unfold iflags_mask.
  rewrite Z.shiftr_lor.
  rewrite (Z.shiftr_shiftl_l 1 IFLAGS_H_SHIFT IFLAGS_H_SHIFT) by lia.
  rewrite Z.sub_diag, Z.shiftl_0_r. apply land_lor_absorb.
Qed.

Lemma iflags_mask_covers_I :
  0 <= IFLAGS_I_SHIFT ->
  Z.land (Z.shiftr iflags_mask IFLAGS_I_SHIFT) 1 = 1.
Proof.
  intros Hi. unfold iflags_mask.
  rewrite !Z.shiftr_lor.
  rewrite (Z.shiftr_shiftl_l 1 IFLAGS_I_SHIFT IFLAGS_I_SHIFT) by lia.
  rewrite Z.sub_diag, Z.shiftl_0_r.
  apply land_lor_absorb_l, land_lor_absorb.
Qed.

Lemma iflags_mask_covers_PRV :
  0 <= IFLAGS_PRV_SHIFT ->
  Z.land (Z.shiftr iflags_mask IFLAGS_PRV_SHIFT) 3 = 3.
Proof.
  intros Hp. unfold iflags_mask.
  rewrite !Z.shiftr_lor.
  rewrite (Z.shiftr_shiftl_l 3 IFLAGS_PRV_SHIFT IFLAGS_PRV_SHIFT) by lia.
  rewrite Z.sub_diag, Z.shiftl_0_r.
  apply land_lor_absorb_l, land_lor_absorb_l. reflexivity.
Qed.

Lemma read_iflags_of_write (s : machine_state) (v : Z) :
  0 <= IFLAGS_H_SHIFT <= 30 -> 0 <= IFLAGS_I_SHIFT <= 30 ->
  0 <= IFLAGS_PRV_SHIFT <= 29 ->
  read_iflags (write_iflags s v) = Z.land v iflags_mask.
Proof.
  intros Hh Hi Hp. unfold read_iflags, write_iflags. cbn.
  rewrite !b2z_to_bool_land_1, to_uint8_land_3.
  now apply packed_iflags_of_fields.
Qed.

(** Writing depends on the bits under the mask only. *)
Lemma write_iflags_masked (s : machine_state) (v : Z) :
  0 <= IFLAGS_H_SHIFT -> 0 <= IFLAGS_I_SHIFT -> 0 <= IFLAGS_PRV_SHIFT ->
  write_iflags s (Z.land v iflags_mask) = write_iflags s v.
Proof.
  intros Hh Hi Hp. unfold write_iflags.
  rewrite (land_shiftr_covered v _ _ _ (iflags_mask_covers_H Hh)).
  rewrite (land_shiftr_covered v _ _ _ (iflags_mask_covers_I Hi)).
  rewrite (land_shiftr_covered v _ _ _ (iflags_mask_covers_PRV Hp)).
  reflexivity.
Qed.

Lemma write_iflags_twice (s : machine_state) (v v' : Z) :
  write_iflags (write_iflags s v) v' = write_iflags s v'.
Proof. reflexivity. Qed.

Lemma testbit_b2z (b : bool) (n : Z) :
  Z.testbit (Z.b2z b) n = b && (n =? 0).
Proof.
  destruct b; cbn [Z.b2z andb]; [|apply Z.testbit_0_l].
  destruct (Z.eqb_spec n 0) as [->|Hn]; [reflexivity|].
  destruct (Z.lt_ge_cases n 0) as [Hneg|Hpos];
    [apply Z.testbit_neg_r; exact Hneg|].
  change 1 with (2 ^ 0). rewrite Z.pow2_bits_eqb by lia.
  apply Z.eqb_neq. lia.
Qed.

Lemma testbit_below_4 (p n : Z) :
  0 <= p < 4 -> (n < 0 \/ 2 <= n) -> Z.testbit p n = false.
Proof.
  intros Hp [Hn|Hn]; [apply Z.testbit_neg_r; exact Hn|].
  rewrite <- (Z.mod_small p (2 ^ 2)) by (change (2 ^ 2) with 4; lia).
  apply Z.mod_pow2_bits_high. lia.
Qed.

Lemma to_bool_land_1_testbit (r k : Z) :
  0 <= k -> to_bool (Z.land (Z.shiftr r k) 1) = Z.testbit r k.
Proof.
  intros Hk. rewrite to_bool_land_1_odd, <- Z.bit0_odd.
  rewrite Z.shiftr_spec by lia. reflexivity.
Qed.

(** The packed register of a state with a two-bit [PRV], bit by bit. *)
Lemma read_iflags_testbit (s : machine_state) (n : Z) :
  0 <= IFLAGS_H_SHIFT <= 30 -> 0 <= IFLAGS_I_SHIFT <= 30 ->
  0 <= IFLAGS_PRV_SHIFT <= 29 ->
  0 <= iflags_PRV (iflags s) < 4 -> 0 <= n ->
  Z.testbit (read_iflags s) n
  = Z.testbit (iflags_PRV (iflags s)) (n - IFLAGS_PRV_SHIFT)
    || iflags_I (iflags s) && (n =? IFLAGS_I_SHIFT)
    || iflags_H (iflags s) && (n =? IFLAGS_H_SHIFT).
Proof.
  intros Hh Hi Hp Hprv Hn. unfold read_iflags, packed_iflags, int_shl.
  assert (Bp : 0 <= Z.shiftl (iflags_PRV (iflags s)) IFLAGS_PRV_SHIFT
               < 2 ^ 31).
  { apply (shiftl_lt_pow2 _ IFLAGS_PRV_SHIFT 2);
      [lia|change (2 ^ 2) with 4; lia|lia|lia]. }
  assert (Bi : 0 <= Z.shiftl (Z.b2z (iflags_I (iflags s))) IFLAGS_I_SHIFT
               < 2 ^ 31).
  { apply (shiftl_lt_pow2 _ IFLAGS_I_SHIFT 1);
      [lia|destruct (iflags_I (iflags s)); cbn; lia|lia|lia]. }
  assert (Bh : 0 <= Z.shiftl (Z.b2z (iflags_H (iflags s))) IFLAGS_H_SHIFT
               < 2 ^ 31).
  { apply (shiftl_lt_pow2 _ IFLAGS_H_SHIFT 1);
      [lia|destruct (iflags_H (iflags s)); cbn; lia|lia|lia]. }
  rewrite !to_int32_small by assumption.
  unfold to_uint64. rewrite Z.mod_small.
  2:{ pose proof (lor_lt_pow2 _ _ 31 (lor_lt_pow2 _ _ 31 Bp Bi) Bh). lia. }
  rewrite !Z.lor_spec, !Z.shiftl_spec by assumption.
  rewrite !testbit_b2z.
  replace (n - IFLAGS_I_SHIFT =? 0) with (n =? IFLAGS_I_SHIFT)
    by (destruct (Z.eqb_spec n IFLAGS_I_SHIFT);
        destruct (Z.eqb_spec (n - IFLAGS_I_SHIFT) 0); lia || reflexivity).
  replace (n - IFLAGS_H_SHIFT =? 0) with (n =? IFLAGS_H_SHIFT)
    by (destruct (Z.eqb_spec n IFLAGS_H_SHIFT);
        destruct (Z.eqb_spec (n - IFLAGS_H_SHIFT) 0); lia || reflexivity).
  reflexivity.
Qed.

(** Packing and unpacking a state gives the state back, when [PRV] has
    no bit beyond its field and the three fields do not overlap. *)
Lemma write_iflags_read_iflags (s : machine_state) :
  0 <= IFLAGS_H_SHIFT <= 30 -> 0 <= IFLAGS_I_SHIFT <= 30 ->
  0 <= IFLAGS_PRV_SHIFT <= 29 ->
  IFLAGS_H_SHIFT <> IFLAGS_I_SHIFT ->
  IFLAGS_H_SHIFT <> IFLAGS_PRV_SHIFT ->
  IFLAGS_H_SHIFT <> IFLAGS_PRV_SHIFT + 1 ->
  IFLAGS_I_SHIFT <> IFLAGS_PRV_SHIFT ->
  IFLAGS_I_SHIFT <> IFLAGS_PRV_SHIFT + 1 ->
  0 <= iflags_PRV (iflags s) < 4 ->
  write_iflags s (read_iflags s) = s.
Proof.
  intros Hh Hi Hp Dhi Dhp Dhp1 Dip Dip1 Hprv.
  pose proof (fun n => read_iflags_testbit s n Hh Hi Hp Hprv) as Bit.
  assert (EH : to_bool (Z.land (Z.shiftr (read_iflags s) IFLAGS_H_SHIFT) 1)
               = iflags_H (iflags s)).
  { rewrite to_bool_land_1_testbit, Bit by lia.
    rewrite (testbit_below_4 _ (IFLAGS_H_SHIFT - IFLAGS_PRV_SHIFT) Hprv)
      by lia.
    rewrite Z.eqb_refl.
    replace (IFLAGS_H_SHIFT =? IFLAGS_I_SHIFT) with false
      by (symmetry; apply Z.eqb_neq; exact Dhi).
    rewrite andb_false_r, andb_true_r. reflexivity. }
  assert (EI : to_bool (Z.land (Z.shiftr (read_iflags s) IFLAGS_I_SHIFT) 1)
               = iflags_I (iflags s)).
  { rewrite to_bool_land_1_testbit, Bit by lia.
    rewrite (testbit_below_4 _ (IFLAGS_I_SHIFT - IFLAGS_PRV_SHIFT) Hprv)
      by lia.
    rewrite Z.eqb_refl.
    replace (IFLAGS_I_SHIFT =? IFLAGS_H_SHIFT) with false
      by (symmetry; apply Z.eqb_neq; lia).
    rewrite andb_false_r, andb_true_r, orb_false_r. reflexivity. }
  assert (EP : to_uint8 (Z.land (Z.shiftr (read_iflags s) IFLAGS_PRV_SHIFT) 3)
               = iflags_PRV (iflags s)).
  { rewrite to_uint8_land_3. apply Z.bits_inj'. intros n Hn.
    rewrite Z.land_spec, Z.shiftr_spec, Bit by lia.
    replace (n + IFLAGS_PRV_SHIFT - IFLAGS_PRV_SHIFT) with n by lia.
    destruct (Z.lt_ge_cases n 2) as [Hlo|Hhi].
    - replace (n + IFLAGS_PRV_SHIFT =? IFLAGS_I_SHIFT) with false
        by (symmetry; apply Z.eqb_neq; lia).
      replace (n + IFLAGS_PRV_SHIFT =? IFLAGS_H_SHIFT) with false
        by (symmetry; apply Z.eqb_neq; lia).
      rewrite !andb_false_r, !orb_false_r.
      assert (E3 : Z.testbit 3 n = true).
      { assert (n = 0 \/ n = 1) as [->| ->] by lia; reflexivity. }
      rewrite E3. apply andb_true_r.
    - rewrite (testbit_below_4 (iflags_PRV (iflags s)) n Hprv) by lia.
      rewrite (testbit_below_4 3 n) by lia. apply andb_false_r. }
  unfold write_iflags. rewrite EH, EI, EP.
  destruct s as [c e p [prv i h] cl ht b]. reflexivity.
Qed.

(** C10: after [write_iflags(v)], [read_iflags()] returns [v] restricted
    to the H bit, the I bit and the two PRV bits, every other bit being
    zero, and writing that value back leaves the state as it is; so
    does [write_iflags(read_iflags())] on any state whose [PRV] fits
    its two bits, the fields not overlapping.  The field positions are
    those of [riscv-constants.h], taken to lie within the non-negative
    range of [int]. *)
Theorem read_iflags_write_iflags (s : machine_state) (v : Z) :
  0 <= IFLAGS_H_SHIFT <= 30 -> 0 <= IFLAGS_I_SHIFT <= 30 ->
  0 <= IFLAGS_PRV_SHIFT <= 29 ->
  read_iflags (write_iflags s v) = Z.land v iflags_mask /\
  (forall n, Z.testbit iflags_mask n = false ->
             Z.testbit (read_iflags (write_iflags s v)) n = false) /\
  write_iflags (write_iflags s v) (read_iflags (write_iflags s v))
  = write_iflags s v /\
  (IFLAGS_H_SHIFT <> IFLAGS_I_SHIFT ->
   IFLAGS_H_SHIFT <> IFLAGS_PRV_SHIFT ->
   IFLAGS_H_SHIFT <> IFLAGS_PRV_SHIFT + 1 ->
   IFLAGS_I_SHIFT <> IFLAGS_PRV_SHIFT ->
   IFLAGS_I_SHIFT <> IFLAGS_PRV_SHIFT + 1 ->
   0 <= iflags_PRV (iflags s) < 4 ->
   write_iflags s (read_iflags s) = s).
Proof.
  intros Hh Hi Hp.
  rewrite (read_iflags_of_write s v Hh Hi Hp).
  split; [reflexivity|]. split; [|split].
  - intros n Hn. rewrite Z.land_spec, Hn. apply andb_false_r.
  - rewrite write_iflags_twice. apply write_iflags_masked; lia.
  - now apply write_iflags_read_iflags.
Qed.


(** ** The break flag *)

Lemma set_brk_from_mip_mie_frame (s : machine_state) :
  set_brk_from_mip_mie s = with_brk (brk (set_brk_from_mip_mie s)) s.
Proof. reflexivity. Qed.

Lemma set_brk_from_iflags_H_frame (s : machine_state) :
  set_brk_from_iflags_H s = with_brk (brk (set_brk_from_iflags_H s)) s.
Proof. reflexivity. Qed.

(** C1, as amended: [set_brk_from_mip_mie] sets [brk] to
    [(mip & mie) != 0] and [set_brk_from_iflags_H] sets it to
    [iflags.H], each ignoring the other source and the old [brk], and
    changing nothing else: [mcycle], [mie], [mip], [iflags], the CLINT
    and the HTIF registers are as before.  So after either, [brk]
    implies the break condition, while the break condition need not
    imply [brk]. *)
Theorem set_brk_single_source (s : machine_state) :
  (brk (set_brk_from_mip_mie s) = true <-> Z.land (mip s) (mie s) <> 0) /\
  brk (set_brk_from_iflags_H s) = iflags_H (iflags s) /\
  (forall Y X, brk (set_brk_from_mip_mie s) = true ->
               break_condition (set_brk_from_mip_mie s) Y X) /\
  (forall Y X, brk (set_brk_from_iflags_H s) = true ->
               break_condition (set_brk_from_iflags_H s) Y X) /\
  (forall b, set_brk_from_mip_mie (with_brk b s) = set_brk_from_mip_mie s) /\
  (forall b, set_brk_from_iflags_H (with_brk b s) = set_brk_from_iflags_H s) /\
  (mcycle (set_brk_from_mip_mie s) = mcycle s /\
   mie (set_brk_from_mip_mie s) = mie s /\
   mip (set_brk_from_mip_mie s) = mip s /\
   iflags (set_brk_from_mip_mie s) = iflags s /\
   clint (set_brk_from_mip_mie s) = clint s /\
   htif (set_brk_from_mip_mie s) = htif s) /\
  (mcycle (set_brk_from_iflags_H s) = mcycle s /\
   mie (set_brk_from_iflags_H s) = mie s /\
   mip (set_brk_from_iflags_H s) = mip s /\
   iflags (set_brk_from_iflags_H s) = iflags s /\
   clint (set_brk_from_iflags_H s) = clint s /\
   htif (set_brk_from_iflags_H s) = htif s) /\
  with_brk (brk s) (set_brk_from_mip_mie s) = s /\
  with_brk (brk s) (set_brk_from_iflags_H s) = s.
Proof.
  split; [apply to_bool_true_iff|].
  split; [reflexivity|].
  split; [intros Y X Hb; left; cbn in *; now apply to_bool_true_iff|].
  split; [intros Y X Hb; right; left; exact Hb|].
  split; [reflexivity|]. split; [reflexivity|].
  split; [repeat split; reflexivity|].
  split; [repeat split; reflexivity|].
  destruct s. split; reflexivity.
Qed.

(** ** The real-time clock *)

(** C8: [rtc_cycle_to_time(c)] is the floor of [c / 100]; the [mtime]
    read is that function of [mcycle], and is 10 at [mcycle = 1000]. *)
Theorem rtc_cycle_to_time_floor (c : Z) :
  is_uint64 c ->
  rtc_cycle_to_time c = c / 100 /\
  100 * rtc_cycle_to_time c <= c < 100 * rtc_cycle_to_time c + 100 /\
  is_uint64 (rtc_cycle_to_time c) /\
  (forall s, mcycle s = c -> read_clint_mtime s = c / 100) /\
  (forall s, mcycle s = 1000 -> read_clint_mtime s = 10).
Proof.
  unfold is_uint64, read_clint_mtime, rtc_cycle_to_time, RTC_FREQ_DIV.
  intros Hc.
  pose proof (Z.div_mod c 100 ltac:(lia)) as Hd.
  pose proof (Z.mod_pos_bound c 100 ltac:(lia)) as Hm.
  split; [reflexivity|].
  split; [lia|].
  split; [lia|].
  split; intros s ->; reflexivity.
Qed.


(** ** The state monad *)

Lemma bind_run {A B : Type} (c : M A) (k : A -> M B) (w : world) :
  bind c k w = k (eval c w) (exec c w).
Proof.
  unfold bind, eval, exec. destruct (c w); reflexivity.
Qed.

Lemma eval_then_ret {A B : Type} (c : M A) (b : B) (w : world) :
  eval (c ;; ret b) w = b.
Proof.
  unfold eval. rewrite bind_run. reflexivity.
Qed.

Lemma exec_then_ret {A B : Type} (c : M A) (b : B) (w : world) :
  exec (c ;; ret b) w = exec c w.
Proof.
  unfold exec at 1. rewrite bind_run. reflexivity.
Qed.

Lemma exec_bind {A B : Type} (c : M A) (k : A -> M B) (w : world) :
  exec (bind c k) w = exec (k (eval c w)) (exec c w).
Proof.
  unfold exec at 1. rewrite bind_run. reflexivity.
Qed.

Lemma eval_bind {A B : Type} (c : M A) (k : A -> M B) (w : world) :
  eval (bind c k) w = eval (k (eval c w)) (exec c w).
Proof.
  unfold eval at 1. rewrite bind_run. reflexivity.
Qed.

(** ** Decoding [tohost] *)

Lemma tohost_device_bits (v : Z) :
  is_uint64 v -> tohost_device v = word_bits v 63 56.
Proof.
  unfold is_uint64, tohost_device, word_bits, to_uint32. intros Hv.
  rewrite Z.shiftr_div_pow2 by lia.
  assert (0 <= v / 2 ^ 56 < 2 ^ 8).
  { split; [apply Z.div_pos; lia|apply Z.div_lt_upper_bound; lia]. }
  rewrite !Z.mod_small; lia.
Qed.

Lemma tohost_cmd_bits (v : Z) : tohost_cmd v = word_bits v 55 48.
Proof.
  unfold tohost_cmd, word_bits, to_uint32.
  change 255 with (Z.ones 8).
  rewrite Z.land_ones, Z.shiftr_div_pow2 by lia.
  change (55 - 48 + 1) with 8.
  pose proof (Z.mod_pos_bound (v / 2 ^ 48) (2 ^ 8) ltac:(lia)).
  apply Z.mod_small. lia.
Qed.

Lemma tohost_payload_bits (v : Z) : tohost_payload v = word_bits v 47 0.
Proof.
  unfold tohost_payload, word_bits.
  replace (Z.shiftr (not64 1) 16) with (Z.ones 48) by reflexivity.
  rewrite Z.land_ones by lia.
  now rewrite Z.pow_0_r, Z.div_1_r.
Qed.


(** With device and cmd zero the word is its payload. *)
Lemma tohost_is_payload (v : Z) :
  is_uint64 v -> word_bits v 63 56 = 0 -> word_bits v 55 48 = 0 ->
  word_bits v 47 0 = v.
Proof.
  unfold is_uint64, word_bits. intros Hv Hd Hc.
  change (63 - 56 + 1) with 8 in Hd. change (55 - 48 + 1) with 8 in Hc.
  change (47 - 0 + 1) with 48.
  rewrite Z.pow_0_r, Z.div_1_r.
  assert (Hhi : v / 2 ^ 56 = 0).
  { rewrite Z.mod_small in Hd; [assumption|].
    split; [apply Z.div_pos; lia|apply Z.div_lt_upper_bound; lia]. }
  assert (H56 : v < 2 ^ 56).
  { apply Z.div_small_iff in Hhi; lia. }
  assert (Hmid : v / 2 ^ 48 = 0).
  { rewrite Z.mod_small in Hc; [assumption|].
    split; [apply Z.div_pos; lia|apply Z.div_lt_upper_bound; lia]. }
  apply Z.div_small_iff in Hmid; [|lia].
  apply Z.mod_small. lia.
Qed.


(** ** Writes to [tohost] *)

(** A write to standard output appends the byte when the host takes
    it and nothing when it fails; either way one result is used up. *)
Lemma host_write_stdout_run (ch : Z) (w : world) :
  exec (host_write_stdout ch) w
  = mk_world (state w) (dev w)
      (mk_host (stdout (host w)
                ++ (if hd true (write_results (host w)) then [ch] else []))
               (stdin (host w)) (tl (write_results (host w)))
               (read_fails (host w)))
      (console_polls w).
Proof.
  unfold host_write_stdout. rewrite exec_bind.
  change (eval get_host w) with (host w). change (exec get_host w) with w.
  destruct (hd true (write_results (host w)));
    [reflexivity|rewrite app_nil_r; reflexivity].
Qed.

(** The result of [write] is tested and dropped. *)
Lemma htif_write_putchar_run (payload : Z) (w : world) :
  htif_write_putchar payload w
  = (true,
     exec (write_htif_fromhost (Z.lor (Z.shiftl 1 56) (Z.shiftl 1 48)))
       (exec (host_write_stdout (to_uint8 (Z.land payload 255)))
          (exec (write_htif_tohost 0) w))).
Proof.
  unfold htif_write_putchar. rewrite !bind_run.
  destruct (eval (host_write_stdout (to_uint8 (Z.land payload 255)))
              (exec (write_htif_tohost 0) w) <? 1); reflexivity.
Qed.

Lemma htif_write_tohost_run (v : Z) (w : world) :
  htif_write_tohost v w =
  let w1 := exec (write_htif_tohost v) w in
  if (tohost_device v =? 0) && (tohost_cmd v =? 0) && Z.odd (tohost_payload v)
  then htif_write_halt (tohost_payload v) w1
  else if (tohost_device v =? 1) && (tohost_cmd v =? 1)
  then htif_write_putchar (tohost_payload v) w1
  else if (tohost_device v =? 1) && (tohost_cmd v =? 0)
  then htif_write_getchar (tohost_payload v) w1
  else (true, w1).
Proof.
  unfold htif_write_tohost. rewrite bind_run, to_bool_land_1_odd.
  cbv zeta.
  destruct ((tohost_device v =? 0) && (tohost_cmd v =? 0)
            && Z.odd (tohost_payload v)); [reflexivity|].
  destruct ((tohost_device v =? 1) && (tohost_cmd v =? 1)); [reflexivity|].
  destruct ((tohost_device v =? 1) && (tohost_cmd v =? 0)); reflexivity.
Qed.

Lemma htif_write_tohost_true (v : Z) (w : world) :
  eval (htif_write_tohost v) w = true.
Proof.
  unfold eval. rewrite htif_write_tohost_run. cbv zeta.
  destruct ((tohost_device v =? 0) && (tohost_cmd v =? 0)
            && Z.odd (tohost_payload v)); [reflexivity|].
  destruct ((tohost_device v =? 1) && (tohost_cmd v =? 1));
    [rewrite htif_write_putchar_run; reflexivity|].
  destruct ((tohost_device v =? 1) && (tohost_cmd v =? 0)); reflexivity.
Qed.

(** C3: a write to [tohost] with device 0, cmd 0 and an odd payload
    succeeds, sets [iflags.H] (and with it [brk]) and leaves the
    written word, which is its payload, in [tohost]; [fromhost], the
    other flags, the HTIF object and the host are untouched. *)
Theorem htif_write_tohost_halt (v : Z) (w : world) :
  is_uint64 v ->
  word_bits v 63 56 = 0 -> word_bits v 55 48 = 0 ->
  Z.odd (word_bits v 47 0) = true ->
  let w' := exec (htif_write_tohost v) w in
  eval (htif_write_tohost v) w = true /\
  iflags_H (iflags (state w')) = true /\
  brk (state w') = true /\
  eval read_htif_tohost w' = v /\
  eval read_htif_tohost w' = word_bits v 47 0 /\
  fromhost (htif (state w')) = fromhost (htif (state w)) /\
  iflags_PRV (iflags (state w')) = iflags_PRV (iflags (state w)) /\
  iflags_I (iflags (state w')) = iflags_I (iflags (state w)) /\
  dev w' = dev w /\ host w' = host w.
Proof.
  intros Hv Hd Hc Hp w'. subst w'.
  rewrite (tohost_is_payload v Hv Hd Hc) in *.
  unfold eval, exec. rewrite htif_write_tohost_run.
  rewrite (tohost_device_bits v Hv), tohost_cmd_bits, tohost_payload_bits.
  rewrite Hd, Hc, (tohost_is_payload v Hv Hd Hc), Hp.
  repeat split; reflexivity.
Qed.

(** C2, as amended: a write to [tohost] whose fields name no command
    succeeds and leaves the written word in [tohost]: nothing is zeroed,
    and nothing else changes. *)
Theorem htif_write_tohost_unknown (v : Z) (w : world) :
  is_uint64 v ->
  ~ (word_bits v 63 56 = 0 /\ word_bits v 55 48 = 0 /\
     Z.odd (word_bits v 47 0) = true) ->
  ~ (word_bits v 63 56 = 1 /\ word_bits v 55 48 = 1) ->
  ~ (word_bits v 63 56 = 1 /\ word_bits v 55 48 = 0) ->
  let w' := exec (htif_write_tohost v) w in
  eval (htif_write_tohost v) w = true /\
  tohost (htif (state w')) = v /\
  fromhost (htif (state w')) = fromhost (htif (state w)) /\
  iflags (state w') = iflags (state w) /\
  brk (state w') = brk (state w) /\
  dev w' = dev w /\ host w' = host w.
Proof.
  intros Hv Hhalt Hput Hget w'. subst w'.
  unfold eval, exec. rewrite htif_write_tohost_run.
  rewrite (tohost_device_bits v Hv), tohost_cmd_bits, tohost_payload_bits.
  cbv zeta.
  destruct (word_bits v 63 56 =? 0) eqn:D0;
    destruct (word_bits v 63 56 =? 1) eqn:D1;
    destruct (word_bits v 55 48 =? 0) eqn:C0;
    destruct (word_bits v 55 48 =? 1) eqn:C1;
    destruct (Z.odd (word_bits v 47 0)) eqn:P;
    rewrite ?Z.eqb_eq, ?Z.eqb_neq in *;
    try (exfalso; tauto); try (exfalso; lia);
    cbn [andb]; repeat split; reflexivity.
Qed.

(** C4, as amended: a write to [tohost] with device 1 and cmd 1
    succeeds, zeroes [tohost], sets [fromhost] to [(1<<56)|(1<<48)] and
    passes the low byte of the payload to exactly one [write] on the
    host's standard output: the byte is appended when that write
    succeeds, and a failed write is ignored, nothing being emitted. *)
Theorem htif_write_tohost_putchar (v : Z) (w : world) :
  is_uint64 v ->
  word_bits v 63 56 = 1 -> word_bits v 55 48 = 1 ->
  let w' := exec (htif_write_tohost v) w in
  eval (htif_write_tohost v) w = true /\
  stdout (host w')
  = stdout (host w)
    ++ (if hd true (write_results (host w))
        then [Z.land (word_bits v 47 0) 255] else []) /\
  Z.land (word_bits v 47 0) 255 = v mod 256 /\
  tohost (htif (state w')) = 0 /\
  fromhost (htif (state w')) = Z.lor (Z.shiftl 1 56) (Z.shiftl 1 48) /\
  fromhost (htif (state w')) = 2 ^ 56 + 2 ^ 48 /\
  stdin (host w') = stdin (host w) /\
  iflags (state w') = iflags (state w) /\
  dev w' = dev w /\
  write_results (host w') = tl (write_results (host w)).
Proof.
  intros Hv Hd Hc w'. subst w'.
  assert (Hbyte : Z.land (word_bits v 47 0) 255 = v mod 256).
  { unfold word_bits. change 255 with (Z.ones 8).
    rewrite Z.land_ones, Z.pow_0_r, Z.div_1_r by lia.
    change (47 - 0 + 1) with 48.
    replace (2 ^ 48) with (2 ^ 8 * 2 ^ 40) by reflexivity.
    rewrite Z.rem_mul_r by lia.
    rewrite Z.mul_comm, Z.mod_add by lia.
    now rewrite Z.mod_mod by lia. }
  assert (Hch : to_uint8 (Z.land (word_bits v 47 0) 255)
                = Z.land (word_bits v 47 0) 255).
  { rewrite Hbyte. unfold to_uint8. change (2 ^ 8) with 256.
    apply Z.mod_mod. lia. }
  unfold eval, exec. rewrite htif_write_tohost_run.
  rewrite (tohost_device_bits v Hv), tohost_cmd_bits, tohost_payload_bits.
  rewrite Hd, Hc. cbv zeta. cbn [Z.eqb andb Pos.eqb].
  rewrite htif_write_putchar_run, Hch, host_write_stdout_run.
  repeat split; try reflexivity. exact Hbyte.
Qed.


(** ** The console poll *)

Ltac run_world :=
  cbv [bind ret exec eval fst snd
       get_state put_state get_dev put_dev modify_dev get_host put_host
       count_console_poll write_htif_fromhost write_htif_tohost
       read_htif_tohost read_htif_fromhost
       host_select_stdin host_read_stdin host_write_stdout
       is_interactive reset_fromhost_pending
       with_buf with_buf_pos with_buf_len with_fromhost_pending
       with_divisor_counter with_htif
       state dev host console_polls stdin stdout write_results read_fails
       m_interactive m_buf m_buf_pos m_buf_len m_fromhost_pending
       m_divisor_counter htif tohost fromhost iflags brk].

Lemma poll_frame_refl (w : world) : poll_frame w w.
Proof. repeat split. Qed.

Lemma poll_frame_trans (w1 w2 w3 : world) :
  poll_frame w1 w2 -> poll_frame w2 w3 -> poll_frame w1 w3.
Proof.
  unfold poll_frame. intuition congruence.
Qed.

Lemma poll_console_fill_frame (w : world) :
  poll_frame w (exec poll_console_fill w) /\
  m_fromhost_pending (dev (exec poll_console_fill w))
  = m_fromhost_pending (dev w) /\
  state (exec poll_console_fill w) = state w.
Proof.
  destruct w as [s d [out [|[|data] rest] wres rerr] n]; destruct d;
    unfold poll_console_fill, poll_frame; run_world;
    try (repeat split; reflexivity).
  destruct (firstn (Z.to_nat HTIF_CONSOLE_BUF_SIZE) data) as [|g gs];
    [destruct rerr; repeat split; reflexivity|].
  destruct (Z.of_nat (length (g :: gs)) <=? 0); repeat split; reflexivity.
Qed.


Lemma poll_console_deliver_run (w : world) :
  let w' := exec poll_console_deliver w in
  poll_frame w w' /\ host w' = host w /\
  ((m_buf_pos (dev w) <? m_buf_len (dev w)) = true /\
   m_buf_pos (dev w') = m_buf_pos (dev w) + 1 /\
   fromhost (htif (state w'))
   = Z.lor (Z.shiftl 1 56)
           (nth (Z.to_nat (m_buf_pos (dev w))) (m_buf (dev w')) 0) /\
   m_fromhost_pending (dev w') = true
   \/
   (m_buf_pos (dev w) <? m_buf_len (dev w)) = false /\ w' = w).
Proof.
  destruct w as [s d h n]; destruct d as [i buf pos len pend cnt].
  unfold poll_console_deliver, poll_frame; run_world.
  destruct (pos <? len); [|repeat split; right; split; reflexivity].
  repeat split. left. repeat split.
Qed.

Lemma poll_console_run (w : world) :
  exec poll_console w =
  if negb (m_fromhost_pending (dev w)) then
    exec poll_console_deliver
      (exec (if m_buf_len (dev w) <=? m_buf_pos (dev w)
             then poll_console_fill else ret tt)
            (exec count_console_poll w))
  else exec count_console_poll w.
Proof.
  unfold poll_console. rewrite !exec_bind.
  change (eval get_dev (exec count_console_poll w)) with (dev w).
  destruct (m_fromhost_pending (dev w)); cbn [negb]; [reflexivity|].
  rewrite exec_bind. reflexivity.
Qed.

Lemma poll_console_frame (w : world) :
  let w' := exec poll_console w in
  m_interactive (dev w') = m_interactive (dev w) /\
  m_divisor_counter (dev w') = m_divisor_counter (dev w) /\
  console_polls w' = S (console_polls w) /\
  stdout (host w') = stdout (host w) /\
  tohost (htif (state w')) = tohost (htif (state w)) /\
  iflags (state w') = iflags (state w) /\
  brk (state w') = brk (state w).
Proof.
  cbv zeta. rewrite poll_console_run.
  destruct (m_fromhost_pending (dev w)); cbn [negb];
    [repeat split; reflexivity|].
  set (w0 := exec count_console_poll w).
  set (w1 := exec (if m_buf_len (dev w) <=? m_buf_pos (dev w)
                   then poll_console_fill else ret tt) w0).
  assert (F1 : poll_frame w0 w1).
  { subst w1. destruct (m_buf_len (dev w) <=? m_buf_pos (dev w));
      [apply poll_console_fill_frame|apply poll_frame_refl]. }
  destruct (poll_console_deliver_run w1) as [F2 _].
  pose proof (poll_frame_trans _ _ _ F1 F2) as F. unfold poll_frame in F.
  subst w0. cbn in F. intuition congruence.
Qed.

(** What a console poll does to [fromhost] and the pending flag: it
    leaves both as they are, or, no character being pending, it hands
    over one buffered byte. *)
Lemma poll_console_delivery (w : world) :
  let w' := exec poll_console w in
  (fromhost (htif (state w')) = fromhost (htif (state w)) /\
   m_fromhost_pending (dev w') = m_fromhost_pending (dev w))
  \/
  (m_fromhost_pending (dev w) = false /\
   m_fromhost_pending (dev w') = true /\
   exists pos byte,
     m_buf_pos (dev w') = pos + 1 /\
     byte = nth (Z.to_nat pos) (m_buf (dev w')) 0 /\
     fromhost (htif (state w')) = Z.lor (Z.shiftl 1 56) byte).
Proof.
  cbv zeta. rewrite poll_console_run.
  destruct (m_fromhost_pending (dev w)) eqn:Hp; cbn [negb];
    [left; split; [reflexivity|exact Hp]|].
  set (w0 := exec count_console_poll w).
  set (w1 := exec (if m_buf_len (dev w) <=? m_buf_pos (dev w)
                   then poll_console_fill else ret tt) w0).
  assert (F1 : m_fromhost_pending (dev w1) = m_fromhost_pending (dev w)
               /\ state w1 = state w).
  { subst w1. destruct (m_buf_len (dev w) <=? m_buf_pos (dev w)).
    - destruct (poll_console_fill_frame w0) as (_ & E1 & E2).
      rewrite E1, E2. split; reflexivity.
    - split; reflexivity. }
  destruct F1 as [E1 E2].
  destruct (poll_console_deliver_run w1) as (_ & _ & [D|D]).
  - destruct D as (_ & Dpos & Dfrom & Dpend).
    right. split; [reflexivity|]. split; [exact Dpend|].
    exists (m_buf_pos (dev w1)), (nth (Z.to_nat (m_buf_pos (dev w1)))
                                 (m_buf (dev (exec poll_console_deliver w1))) 0).
    repeat split; assumption.
  - destruct D as [_ D]. rewrite D, E1, E2, Hp. left. split; reflexivity.
Qed.


(** ** Device accesses *)

Lemma misaligned_iff (offset : Z) :
  to_bool (Z.land offset 7) = negb (offset mod 8 =? 0).
Proof.
  change 7 with (Z.ones 3). rewrite Z.land_ones by lia. reflexivity.
Qed.

Lemma htif_write_fromhost_true (val : Z) (w : world) :
  eval (htif_write_fromhost val) w = true.
Proof.
  unfold htif_write_fromhost. rewrite !eval_bind. reflexivity.
Qed.

(** The condition under which the HTIF callbacks accept an access. *)
Lemma htif_access_ok_iff (offset size_log2 : Z) :
  (negb (size_log2 =? 3) || negb (offset mod 8 =? 0) = false /\
   ((offset =? HTIF_TOHOST_REL_ADDR) = true \/
    (offset =? HTIF_FROMHOST_REL_ADDR) = true))
  <-> size_log2 = 3 /\ offset mod 8 = 0 /\ (offset = 0 \/ offset = 8).
Proof.
  unfold HTIF_TOHOST_REL_ADDR, HTIF_FROMHOST_REL_ADDR.
  rewrite orb_false_iff, !negb_false_iff, !Z.eqb_eq. tauto.
Qed.

(** C6: the HTIF read callback and the HTIF write callback each accept
    an access exactly when it is 64 bits wide, 8-byte aligned and at
    offset 0 ([tohost]) or 8 ([fromhost]); a read returns the register
    and changes nothing, and a refused write changes nothing. *)
Theorem htif_access_accepted (offset size_log2 val : Z) (w : world) :
  ((exists v, eval (htif_read offset size_log2) w = Some v)
   <-> size_log2 = 3 /\ offset mod 8 = 0 /\ (offset = 0 \/ offset = 8)) /\
  (eval (htif_write offset val size_log2) w = true
   <-> size_log2 = 3 /\ offset mod 8 = 0 /\ (offset = 0 \/ offset = 8)) /\
  exec (htif_read offset size_log2) w = w /\
  (eval (htif_read offset size_log2) w = None \/
   eval (htif_read offset size_log2) w = Some (tohost (htif (state w)))
   /\ offset = 0 \/
   eval (htif_read offset size_log2) w = Some (fromhost (htif (state w)))
   /\ offset = 8) /\
  (eval (htif_write offset val size_log2) w = false ->
   exec (htif_write offset val size_log2) w = w).
Proof.
  rewrite <- htif_access_ok_iff.
  unfold htif_read, htif_write. rewrite misaligned_iff.
  destruct (negb (size_log2 =? 3) || negb (offset mod 8 =? 0)).
  { split; [|split; [|split; [|split]]].
    - split; [intros [v Hv]; discriminate|intros [? _]; discriminate].
    - split; [discriminate|intros [? _]; discriminate].
    - reflexivity.
    - left. reflexivity.
    - reflexivity. }
  destruct (offset =? HTIF_TOHOST_REL_ADDR) eqn:E0.
  { apply Z.eqb_eq in E0. split; [|split; [|split; [|split]]].
    - split; [auto|]. intros _.
      exists (tohost (htif (state w))). reflexivity.
    - split; [auto|]. intros _. apply htif_write_tohost_true.
    - reflexivity.
    - right. left. split; [reflexivity|exact E0].
    - rewrite htif_write_tohost_true. discriminate. }
  destruct (offset =? HTIF_FROMHOST_REL_ADDR) eqn:E8.
  { apply Z.eqb_eq in E8. split; [|split; [|split; [|split]]].
    - split; [auto|]. intros _.
      exists (fromhost (htif (state w))). reflexivity.
    - split; [auto|]. intros _. apply htif_write_fromhost_true.
    - reflexivity.
    - right. right. split; [reflexivity|exact E8].
    - rewrite htif_write_fromhost_true. discriminate. }
  split; [|split; [|split; [|split]]].
  - split; [intros [v Hv]; discriminate|intros [_ [?|?]]; discriminate].
  - split; [discriminate|intros [_ [?|?]]; discriminate].
  - reflexivity.
  - left. reflexivity.
  - reflexivity.
Qed.


(** ** Rate-limited interaction *)

Lemma interact_run (w : world) :
  exec interact w =
  if m_interactive (dev w) then
    if HTIF_INTERACT_DIVISOR <=? m_divisor_counter (dev w) + 1
    then exec poll_console (exec (modify_dev (with_divisor_counter 0)) w)
    else exec (modify_dev
                 (with_divisor_counter (m_divisor_counter (dev w) + 1))) w
  else w.
Proof.
  unfold interact. rewrite exec_bind.
  change (eval get_dev w) with (dev w).
  change (exec get_dev w) with w.
  destruct (m_interactive (dev w)); [|reflexivity].
  rewrite exec_bind.
  destruct (HTIF_INTERACT_DIVISOR <=? m_divisor_counter (dev w) + 1);
    [|reflexivity].
  rewrite exec_bind. reflexivity.
Qed.

Lemma interact_not_interactive (w : world) :
  m_interactive (dev w) = false -> exec interact w = w.
Proof.
  intros Hi. rewrite interact_run, Hi. reflexivity.
Qed.

Lemma interact_interactive (w : world) :
  m_interactive (dev (exec interact w)) = m_interactive (dev w).
Proof.
  rewrite interact_run.
  destruct (m_interactive (dev w)) eqn:Hi; [|exact Hi].
  destruct (HTIF_INTERACT_DIVISOR <=? m_divisor_counter (dev w) + 1).
  - destruct (poll_console_frame
                (exec (modify_dev (with_divisor_counter 0)) w)) as [E _].
    rewrite E. exact Hi.
  - exact Hi.
Qed.

(** A call that reaches the divisor polls once and restarts the
    count. *)
Lemma interact_poll (w : world) :
  m_interactive (dev w) = true ->
  HTIF_INTERACT_DIVISOR <= m_divisor_counter (dev w) + 1 ->
  console_polls (exec interact w) = S (console_polls w) /\
  m_divisor_counter (dev (exec interact w)) = 0.
Proof.
  intros Hi Hc. rewrite interact_run, Hi.
  apply Z.leb_le in Hc. rewrite Hc.
  destruct (poll_console_frame
              (exec (modify_dev (with_divisor_counter 0)) w))
    as (_ & E1 & E2 & _).
  rewrite E1, E2. split; reflexivity.
Qed.

(** A call below the divisor only counts. *)
Lemma interact_skip (w : world) :
  m_interactive (dev w) = true ->
  m_divisor_counter (dev w) + 1 < HTIF_INTERACT_DIVISOR ->
  exec interact w
  = exec (modify_dev
            (with_divisor_counter (m_divisor_counter (dev w) + 1))) w.
Proof.
  intros Hi Hc. rewrite interact_run, Hi.
  apply Z.leb_gt in Hc. rewrite Hc. reflexivity.
Qed.

Lemma interact_polls_at_most_once (w : world) :
  console_polls (exec interact w) = console_polls w \/
  console_polls (exec interact w) = S (console_polls w) /\
  m_interactive (dev w) = true /\
  m_divisor_counter (dev (exec interact w)) = 0.
Proof.
  destruct (m_interactive (dev w)) eqn:Hi.
  - destruct (Z.le_gt_cases HTIF_INTERACT_DIVISOR
                (m_divisor_counter (dev w) + 1)) as [Hc|Hc].
    + right. destruct (interact_poll w Hi Hc) as [E1 E2]. auto.
    + left. rewrite (interact_skip w Hi Hc). reflexivity.
  - left. rewrite (interact_not_interactive w Hi). reflexivity.
Qed.

Lemma interact_n_S (n : nat) (w : world) :
  interact_n (S n) w = exec interact (interact_n n w).
Proof. reflexivity. Qed.

Lemma interact_n_add (n m : nat) (w : world) :
  interact_n (n + m) w = interact_n n (interact_n m w).
Proof.
  unfold interact_n. apply Nat.iter_add.
Qed.

Lemma interact_n_interactive (n : nat) (w : world) :
  m_interactive (dev (interact_n n w)) = m_interactive (dev w).
Proof.
  induction n as [|n IH]; [reflexivity|].
  rewrite interact_n_S, interact_interactive. exact IH.
Qed.

(** While the count stays below the divisor no poll happens. *)
Lemma interact_n_quiet (n : nat) (w : world) :
  m_interactive (dev w) = true ->
  m_divisor_counter (dev w) + Z.of_nat n < HTIF_INTERACT_DIVISOR ->
  m_divisor_counter (dev (interact_n n w))
  = m_divisor_counter (dev w) + Z.of_nat n /\
  console_polls (interact_n n w) = console_polls w.
Proof.
  intros Hi. induction n as [|n IH]; intros Hc.
  - split; [cbn; lia|reflexivity].
  - destruct IH as [IHc IHp]; [lia|].
    rewrite interact_n_S.
    rewrite interact_skip;
      [|rewrite interact_n_interactive; exact Hi|lia].
    cbn [exec snd modify_dev dev console_polls with_divisor_counter
         m_divisor_counter].
    rewrite IHc, IHp. split; [lia|reflexivity].
Qed.

(** Any [n <= HTIF_INTERACT_DIVISOR] consecutive calls poll at most
    once. *)
Lemma interact_n_window (n : nat) (w : world) :
  Z.of_nat n <= HTIF_INTERACT_DIVISOR ->
  (console_polls (interact_n n w) <= S (console_polls w))%nat /\
  (console_polls w <= console_polls (interact_n n w))%nat.
Proof.
  revert w. induction n as [|n IH]; intros w Hn.
  - cbn. lia.
  - replace (S n) with (n + 1)%nat by lia. rewrite interact_n_add.
    change (interact_n 1 w) with (exec interact w).
    destruct (interact_polls_at_most_once w) as [E|(E & Hi & Hc)].
    + destruct (IH (exec interact w)) as [U L]; [lia|]. lia.
    + destruct (interact_n_quiet n (exec interact w)) as [_ Q].
      * rewrite interact_interactive. exact Hi.
      * rewrite Hc. lia.
      * rewrite Q, E. lia.
Qed.

Lemma polls_at_guard (w : world) (k : nat) :
  polls_at w k ->
  m_interactive (dev w) = true /\
  m_divisor_counter (dev (interact_n (S k) w)) = 0.
Proof.
  unfold polls_at. rewrite interact_n_S. intros Hp.
  destruct (interact_polls_at_most_once (interact_n k w))
    as [E|(_ & Hi & Hc)]; [lia|].
  rewrite interact_n_interactive in Hi. auto.
Qed.

(** C9: in a run of consecutive [interact] calls, two calls that poll
    the console are at least [HTIF_INTERACT_DIVISOR] calls apart, any
    [HTIF_INTERACT_DIVISOR] consecutive calls poll at most once, and a
    non-interactive HTIF is left untouched and never polls. *)
Theorem interact_rate_limited (w : world) :
  (forall i j, (i < j)%nat -> polls_at w i -> polls_at w j ->
     HTIF_INTERACT_DIVISOR <= Z.of_nat (j - i)) /\
  (forall k n, Z.of_nat n <= HTIF_INTERACT_DIVISOR ->
     (console_polls (interact_n (n + k) w)
      <= S (console_polls (interact_n k w)))%nat) /\
  (m_interactive (dev w) = false -> forall n, interact_n n w = w).
Proof.
  split; [intros i j Hij Hpi Hpj|split].
  - destruct (polls_at_guard w i Hpi) as [Hi Hc].
    destruct (Z.le_gt_cases HTIF_INTERACT_DIVISOR (Z.of_nat (j - i)))
      as [Hle|Hgt]; [exact Hle|exfalso].
    (* calls i+1 .. j all stay below the divisor *)
    set (w1 := interact_n (S i) w) in *.
    assert (Ej : forall m, interact_n (m + S i) w = interact_n m w1).
    { intros m. apply interact_n_add. }
    unfold polls_at in Hpj.
    replace (S j) with (S (j - S i) + S i)%nat in Hpj by lia.
    replace j with ((j - S i) + S i)%nat in Hpj at 2 by lia.
    rewrite !Ej in Hpj.
    destruct (interact_n_quiet (S (j - S i)) w1) as [_ Q1].
    { unfold w1. rewrite interact_n_interactive. exact Hi. }
    { rewrite Hc. lia. }
    destruct (interact_n_quiet (j - S i) w1) as [_ Q2].
    { unfold w1. rewrite interact_n_interactive. exact Hi. }
    { rewrite Hc. lia. }
    rewrite Q1, Q2 in Hpj. lia.
  - intros k n Hn. rewrite interact_n_add.
    apply (interact_n_window n (interact_n k w) Hn).
  - intros Hni n. induction n as [|n IH]; [reflexivity|].
    rewrite interact_n_S, IH. apply interact_not_interactive, Hni.
Qed.


(** ** The console poll, case by case *)

Ltac step_world :=
  cbv [bind ret exec eval
       get_state put_state get_dev put_dev modify_dev get_host put_host
       count_console_poll write_htif_fromhost write_htif_tohost
       read_htif_tohost read_htif_fromhost
       host_select_stdin host_read_stdin host_write_stdout
       is_interactive reset_fromhost_pending
       with_buf with_buf_pos with_buf_len with_fromhost_pending
       with_divisor_counter with_htif];
  cbn [fst snd state dev host console_polls stdin stdout
       write_results read_fails hd tl
       m_interactive m_buf m_buf_pos m_buf_len m_fromhost_pending
       m_divisor_counter htif tohost fromhost iflags brk mcycle mie mip
       clint].

Ltac open_world w :=
  destruct w as [?s [?i ?buf ?pos ?len ?pend ?cnt]
                    [?out ?sin ?wres ?rerr] ?n];
  cbn [dev host state console_polls stdin stdout write_results read_fails
       m_interactive m_buf
       m_buf_pos m_buf_len m_fromhost_pending m_divisor_counter].

Lemma poll_console_next (w : world) :
  m_fromhost_pending (dev w) = false ->
  0 <= m_buf_pos (dev w) < m_buf_len (dev w) ->
  let w' := exec poll_console w in
  fromhost (htif (state w'))
  = getchar_word (nth (Z.to_nat (m_buf_pos (dev w))) (m_buf (dev w)) 0) /\
  m_fromhost_pending (dev w') = true /\
  m_buf_pos (dev w') = m_buf_pos (dev w) + 1 /\
  m_buf (dev w') = m_buf (dev w) /\
  m_buf_len (dev w') = m_buf_len (dev w) /\
  host w' = host w.
Proof.
  open_world w. intros -> Hpos. cbv zeta. rewrite poll_console_run.
  cbn [dev m_fromhost_pending m_buf_pos m_buf_len m_buf negb].
  replace (len <=? pos) with false by (symmetry; apply Z.leb_gt; lia).
  unfold poll_console_deliver. step_world.
  replace (pos <? len) with true by (symmetry; apply Z.ltb_lt; lia).
  step_world. repeat split; reflexivity.
Qed.

Lemma poll_console_fill_next (w : world) (b : Z) (data : list Z)
    (rest : list stdin_event) :
  m_fromhost_pending (dev w) = false ->
  m_buf_len (dev w) <= m_buf_pos (dev w) ->
  stdin (host w) = stdin_ready (b :: data) :: rest ->
  1 <= HTIF_CONSOLE_BUF_SIZE ->
  let got := firstn (Z.to_nat HTIF_CONSOLE_BUF_SIZE) (b :: data) in
  let w' := exec poll_console w in
  fromhost (htif (state w')) = getchar_word b /\
  m_fromhost_pending (dev w') = true /\
  m_buf_pos (dev w') = 1 /\
  m_buf_len (dev w') = Z.of_nat (length got) /\
  1 <= m_buf_len (dev w') <= HTIF_CONSOLE_BUF_SIZE /\
  m_buf (dev w') = got ++ skipn (length got) (m_buf (dev w)) /\
  stdin (host w')
  = match skipn (Z.to_nat HTIF_CONSOLE_BUF_SIZE) (b :: data) with
    | [] => rest
    | x :: more => stdin_ready (x :: more) :: rest
    end /\
  stdout (host w') = stdout (host w).
Proof.
  open_world w. intros -> Hlen -> HB. cbv zeta. rewrite poll_console_run.
  cbn [dev m_fromhost_pending m_buf_pos m_buf_len m_buf negb].
  replace (len <=? pos) with true by (symmetry; apply Z.leb_le; lia).
  assert (Hk : (length (firstn (Z.to_nat HTIF_CONSOLE_BUF_SIZE) (b :: data))
                <= Z.to_nat HTIF_CONSOLE_BUF_SIZE)%nat)
    by apply firstn_le_length.
  destruct (Z.to_nat HTIF_CONSOLE_BUF_SIZE) as [|k] eqn:EB; [lia|].
  unfold poll_console_fill. step_world. rewrite EB.
  cbn [firstn length] in Hk |- *.
  replace (Z.of_nat (S (length (firstn k data))) <=? 0) with false
    by (symmetry; apply Z.leb_gt; lia).
  unfold poll_console_deliver. step_world.
  replace (0 <? Z.of_nat (S (length (firstn k data)))) with true
    by (symmetry; apply Z.ltb_lt; lia).
  step_world.
  repeat split; try reflexivity; try lia.
  destruct (skipn (S k) (b :: data)); reflexivity.
Qed.

(** An interactive [interact] that reaches the divisor is a console
    poll with the counter back at 0. *)
Lemma interact_reaches_poll (w : world) :
  m_interactive (dev w) = true ->
  HTIF_INTERACT_DIVISOR <= m_divisor_counter (dev w) + 1 ->
  exec interact w
  = exec poll_console (exec (modify_dev (with_divisor_counter 0)) w).
Proof.
  intros Hi Hc. rewrite interact_run, Hi.
  apply Z.leb_le in Hc. rewrite Hc. reflexivity.
Qed.

(** ** The getchar command *)

(** C5: a write to [tohost] with device 1 and cmd 0 succeeds and only
    zeroes [tohost]: [fromhost], the HTIF object (with its pending
    flag) and the host are as before and no poll runs.  A byte reaches
    [fromhost] through [poll_console] alone, which either leaves
    [fromhost] and the pending flag as they are or stores
    [(1<<56)|byte] and raises the flag; a non-interactive HTIF never
    polls.  And the poll does deliver: with no character pending it
    stores [(1<<56)|byte] in [fromhost] and raises the flag, [byte]
    being the next buffered character or, the buffer being used up, the
    first byte read from a ready standard input; so does the
    [interact] call of an interactive HTIF that reaches the divisor. *)
Theorem htif_write_tohost_getchar (v : Z) (w : world) :
  is_uint64 v ->
  word_bits v 63 56 = 1 -> word_bits v 55 48 = 0 ->
  let w' := exec (htif_write_tohost v) w in
  (eval (htif_write_tohost v) w = true /\
   tohost (htif (state w')) = 0 /\
   fromhost (htif (state w')) = fromhost (htif (state w)) /\
   m_fromhost_pending (dev w') = m_fromhost_pending (dev w) /\
   dev w' = dev w /\ host w' = host w /\
   console_polls w' = console_polls w /\
   iflags (state w') = iflags (state w)) /\
  (forall w0,
     let w1 := exec poll_console w0 in
     (fromhost (htif (state w1)) = fromhost (htif (state w0)) /\
      m_fromhost_pending (dev w1) = m_fromhost_pending (dev w0))
     \/
     (m_fromhost_pending (dev w0) = false /\
      m_fromhost_pending (dev w1) = true /\
      exists pos byte,
        m_buf_pos (dev w1) = pos + 1 /\
        byte = nth (Z.to_nat pos) (m_buf (dev w1)) 0 /\
        fromhost (htif (state w1)) = Z.lor (Z.shiftl 1 56) byte)) /\
  (forall w0 val,
     m_interactive (dev w0) = false ->
     exec interact w0 = w0 /\
     exec (htif_write_fromhost val) w0 = exec (write_htif_fromhost val) w0) /\
  (forall w0,
     m_fromhost_pending (dev w0) = false ->
     0 <= m_buf_pos (dev w0) < m_buf_len (dev w0) ->
     let w1 := exec poll_console w0 in
     fromhost (htif (state w1))
     = Z.lor (Z.shiftl 1 56)
             (nth (Z.to_nat (m_buf_pos (dev w0))) (m_buf (dev w0)) 0) /\
     m_fromhost_pending (dev w1) = true /\
     m_buf_pos (dev w1) = m_buf_pos (dev w0) + 1) /\
  (forall w0 b data rest,
     m_fromhost_pending (dev w0) = false ->
     m_buf_len (dev w0) <= m_buf_pos (dev w0) ->
     stdin (host w0) = stdin_ready (b :: data) :: rest ->
     1 <= HTIF_CONSOLE_BUF_SIZE ->
     let w1 := exec poll_console w0 in
     fromhost (htif (state w1)) = Z.lor (Z.shiftl 1 56) b /\
     m_fromhost_pending (dev w1) = true /\
     m_buf_pos (dev w1) = 1) /\
  (forall w0,
     m_interactive (dev w0) = true ->
     HTIF_INTERACT_DIVISOR <= m_divisor_counter (dev w0) + 1 ->
     m_fromhost_pending (dev w0) = false ->
     0 <= m_buf_pos (dev w0) < m_buf_len (dev w0) ->
     let w1 := exec interact w0 in
     fromhost (htif (state w1))
     = Z.lor (Z.shiftl 1 56)
             (nth (Z.to_nat (m_buf_pos (dev w0))) (m_buf (dev w0)) 0) /\
     m_fromhost_pending (dev w1) = true) /\
  (forall w0 b data rest,
     m_interactive (dev w0) = true ->
     HTIF_INTERACT_DIVISOR <= m_divisor_counter (dev w0) + 1 ->
     m_fromhost_pending (dev w0) = false ->
     m_buf_len (dev w0) <= m_buf_pos (dev w0) ->
     stdin (host w0) = stdin_ready (b :: data) :: rest ->
     1 <= HTIF_CONSOLE_BUF_SIZE ->
     let w1 := exec interact w0 in
     fromhost (htif (state w1)) = Z.lor (Z.shiftl 1 56) b /\
     m_fromhost_pending (dev w1) = true).
Proof.
  intros Hv Hd Hc w'. subst w'.
  split; [|split; [|split; [|split; [|split; [|split]]]]].
  - unfold eval, exec. rewrite htif_write_tohost_run.
    rewrite (tohost_device_bits v Hv), tohost_cmd_bits.
    rewrite Hd, Hc. cbv zeta. cbn [Z.eqb andb Pos.eqb].
    repeat split; reflexivity.
  - intros w0. apply poll_console_delivery.
  - intros w0 val Hni. split; [apply interact_not_interactive, Hni|].
    unfold htif_write_fromhost. rewrite !exec_bind.
    change (eval is_interactive (exec (write_htif_fromhost val) w0))
      with (m_interactive (dev w0)).
    rewrite Hni. reflexivity.
  - intros w0 Hp Hpos.
    destruct (poll_console_next w0 Hp Hpos) as (E1 & E2 & E3 & _).
    split; [exact E1|]. split; [exact E2|exact E3].
  - intros w0 b data rest Hp Hlen Hin HB.
    destruct (poll_console_fill_next w0 b data rest Hp Hlen Hin HB)
      as (E1 & E2 & E3 & _).
    split; [exact E1|]. split; [exact E2|exact E3].
  - intros w0 Hi Hcnt Hp Hpos. cbv zeta.
    rewrite (interact_reaches_poll w0 Hi Hcnt).
    destruct (poll_console_next
                (exec (modify_dev (with_divisor_counter 0)) w0) Hp Hpos)
      as (E1 & E2 & _).
    split; [exact E1|exact E2].
  - intros w0 b data rest Hi Hcnt Hp Hlen Hin HB. cbv zeta.
    rewrite (interact_reaches_poll w0 Hi Hcnt).
    destruct (poll_console_fill_next
                (exec (modify_dev (with_divisor_counter 0)) w0)
                b data rest Hp Hlen Hin HB)
      as (E1 & E2 & _).
    split; [exact E1|exact E2].
Qed.


(** ** The peek callback *)

Lemma le_bytes_length (n : nat) (v : Z) : length (le_bytes n v) = n.
Proof.
  revert v. induction n as [|n IH]; intros v; cbn; [|rewrite IH]; reflexivity.
Qed.

Lemma le_word_le_bytes (n : nat) (v : Z) :
  le_word (le_bytes n v) = v mod 256 ^ Z.of_nat n.
Proof.
  revert v. induction n as [|n IH]; intros v.
  - cbn. now rewrite Z.mod_1_r.
  - cbn [le_bytes le_word]. rewrite IH.
    rewrite Nat2Z.inj_succ, Z.pow_succ_r by lia.
    rewrite Z.rem_mul_r; [reflexivity|lia|].
    apply Z.pow_pos_nonneg; lia.
Qed.

Lemma le_word_le_bytes_u64 (v : Z) :
  is_uint64 v -> le_word (le_bytes 8 v) = v.
Proof.
  intros Hv. rewrite le_word_le_bytes. apply Z.mod_small. exact Hv.
Qed.

(** The page the callback builds, whatever [scratch] held before. *)
Lemma htif_peek_scratch (t f : Z) (scratch : list Z) :
  16 <= PMA_PAGE_SIZE ->
  length scratch = Z.to_nat PMA_PAGE_SIZE ->
  aliased_aligned_write_u64
    (aliased_aligned_write_u64 (memset_zero PMA_PAGE_SIZE scratch)
                               HTIF_TOHOST_REL_ADDR t)
    HTIF_FROMHOST_REL_ADDR f
  = le_bytes 8 t ++ le_bytes 8 f
      ++ repeat 0 (Z.to_nat PMA_PAGE_SIZE - 16).
Proof.
  intros Hp Hl. unfold memset_zero.
  rewrite skipn_all2 by lia. rewrite app_nil_r.
  replace (repeat 0 (Z.to_nat PMA_PAGE_SIZE))
    with (repeat 0 8 ++ repeat 0 8 ++ repeat 0 (Z.to_nat PMA_PAGE_SIZE - 16))
    by (rewrite <- !repeat_app; f_equal; lia).
  unfold aliased_aligned_write_u64.
  change (Z.to_nat HTIF_TOHOST_REL_ADDR) with 0%nat.
  change (Z.to_nat HTIF_FROMHOST_REL_ADDR) with 8%nat.
  generalize (repeat 0 (Z.to_nat PMA_PAGE_SIZE - 16)). intros zeros.
  reflexivity.
Qed.

(** C7: for a page-aligned offset inside the HTIF range the peek
    callback returns true; page 0 comes back in [scratch] as zeros with
    [tohost] at offset 0 and [fromhost] at offset 8, every other page as
    pristine ([nullptr]); a misaligned or out-of-range offset is
    refused. *)
Theorem htif_peek_pages (pma_length page_offset : Z) (s : machine_state)
    (scratch : list Z) :
  16 <= PMA_PAGE_SIZE ->
  length scratch = Z.to_nat PMA_PAGE_SIZE ->
  is_uint64 (tohost (htif s)) -> is_uint64 (fromhost (htif s)) ->
  (page_offset mod PMA_PAGE_SIZE = 0 -> page_offset < pma_length ->
   fst (htif_peek pma_length s page_offset scratch) = true) /\
  (page_offset = 0 -> 0 < pma_length ->
   exists page,
     htif_peek pma_length s page_offset scratch = (true, page_scratch page) /\
     page = le_bytes 8 (tohost (htif s)) ++ le_bytes 8 (fromhost (htif s))
              ++ repeat 0 (Z.to_nat PMA_PAGE_SIZE - 16) /\
     length page = Z.to_nat PMA_PAGE_SIZE /\
     le_word (firstn 8 page) = tohost (htif s) /\
     le_word (firstn 8 (skipn 8 page)) = fromhost (htif s) /\
     (forall i, (16 <= i)%nat -> nth i page 0 = 0)) /\
  (page_offset <> 0 -> page_offset mod PMA_PAGE_SIZE = 0 ->
   page_offset < pma_length ->
   htif_peek pma_length s page_offset scratch = (true, page_nullptr)) /\
  (page_offset mod PMA_PAGE_SIZE <> 0 \/ pma_length <= page_offset ->
   htif_peek pma_length s page_offset scratch = (false, page_nullptr)).
Proof.
  intros Hp Hl Ht Hf. unfold htif_peek.
  split; [|split; [|split]].
  - intros Ha Hr.
    apply Z.eqb_eq in Ha. apply Z.leb_gt in Hr. rewrite Ha, Hr.
    cbn [negb orb]. destruct (page_offset =? 0); reflexivity.
  - intros -> Hr. rewrite Z.mod_0_l by lia.
    apply Z.leb_gt in Hr. rewrite Hr. cbn [Z.eqb negb orb].
    rewrite (htif_peek_scratch _ _ scratch Hp Hl).
    eexists. split; [reflexivity|]. split; [reflexivity|].
    split; [|split; [|split]].
    + rewrite !length_app, !le_bytes_length, repeat_length. lia.
    + rewrite firstn_app, le_bytes_length.
      change (8 - 8)%nat with 0%nat. rewrite firstn_O, app_nil_r.
      rewrite firstn_all2 by (rewrite le_bytes_length; lia).
      apply le_word_le_bytes_u64, Ht.
    + rewrite skipn_app, le_bytes_length.
      change (8 - 8)%nat with 0%nat.
      rewrite skipn_all2 by (rewrite le_bytes_length; lia).
      cbn [app skipn].
      rewrite firstn_app, le_bytes_length.
      change (8 - 8)%nat with 0%nat. rewrite firstn_O, app_nil_r.
      rewrite firstn_all2 by (rewrite le_bytes_length; lia).
      apply le_word_le_bytes_u64, Hf.
    + intros i Hi.
      rewrite app_nth2 by (rewrite le_bytes_length; lia).
      rewrite app_nth2 by (rewrite !le_bytes_length; lia).
      apply nth_repeat.
  - intros Hn Ha Hr.
    apply Z.eqb_eq in Ha. apply Z.leb_gt in Hr. apply Z.eqb_neq in Hn.
    rewrite Ha, Hr, Hn. reflexivity.
  - intros [Hm|Ho].
    + apply Z.eqb_neq in Hm. rewrite Hm. reflexivity.
    + apply Z.leb_le in Ho. rewrite Ho, orb_true_r. reflexivity.
Qed.


(** * Further properties *)

(** ** The real-time clock, both ways *)

Lemma rtc_time_to_cycle_small (t : Z) :
  0 <= t -> t * 100 < 2 ^ 64 -> rtc_time_to_cycle t = t * 100.
Proof.
  intros H0 H1. unfold rtc_time_to_cycle, to_uint64, RTC_FREQ_DIV.
  apply Z.mod_small. lia.
Qed.

(** X1: while [time * 100] fits in 64 bits, [rtc_time_to_cycle(time)]
    is the first cycle at which the clock shows [time]: the time of a
    cycle count reaches [time] exactly when the count reaches that
    cycle, and converting back gives [time]. *)
Theorem rtc_time_reached (t c : Z) :
  0 <= t -> t * 100 < 2 ^ 64 -> is_uint64 c ->
  rtc_cycle_to_time (rtc_time_to_cycle t) = t /\
  (t <= rtc_cycle_to_time c <-> rtc_time_to_cycle t <= c).
Proof.
  intros H0 H1 Hc. rewrite (rtc_time_to_cycle_small t H0 H1).
  unfold rtc_cycle_to_time, RTC_FREQ_DIV. split.
  - apply Z.div_mul. lia.
  - pose proof (Z.div_mod c 100 ltac:(lia)).
    pose proof (Z.mod_pos_bound c 100 ltac:(lia)). lia.
Qed.

(** X2: converting a cycle count to time and back rounds it down to a
    multiple of [RTC_FREQ_DIV], losing [cycle mod 100] cycles, and
    [rtc_cycle_to_time] is monotone. *)
Theorem rtc_cycle_round_down (c c' : Z) :
  is_uint64 c -> is_uint64 c' ->
  rtc_time_to_cycle (rtc_cycle_to_time c) = c - c mod 100 /\
  rtc_time_to_cycle (rtc_cycle_to_time c) <= c /\
  (c <= c' -> rtc_cycle_to_time c <= rtc_cycle_to_time c').
Proof.
  unfold is_uint64. intros Hc Hc'.
  pose proof (Z.div_mod c 100 ltac:(lia)) as Hd.
  pose proof (Z.mod_pos_bound c 100 ltac:(lia)) as Hm.
  assert (E : rtc_time_to_cycle (rtc_cycle_to_time c) = c - c mod 100).
  { unfold rtc_cycle_to_time, RTC_FREQ_DIV.
    rewrite rtc_time_to_cycle_small; [lia| |lia].
    apply Z.div_pos; lia. }
  rewrite E. split; [reflexivity|]. split; [lia|].
  intros Hle. unfold rtc_cycle_to_time, RTC_FREQ_DIV.
  apply Z.div_le_mono; lia.
Qed.

(** X3: [rtc_time_to_cycle] multiplies in 64 bits, so a time converts
    to cycles and back to itself exactly when [time * 100] does not
    overflow. *)
Theorem rtc_time_round_trip_iff (t : Z) :
  is_uint64 t ->
  (rtc_cycle_to_time (rtc_time_to_cycle t) = t <-> t * 100 < 2 ^ 64).
Proof.
  unfold is_uint64. intros Ht. split.
  - intros E. destruct (Z.lt_ge_cases (t * 100) (2 ^ 64)) as [Hlt|Hge];
      [exact Hlt|exfalso].
    unfold rtc_cycle_to_time, rtc_time_to_cycle, to_uint64, RTC_FREQ_DIV in E.
    pose proof (Z.mod_pos_bound (t * 100) (2 ^ 64) ltac:(lia)) as Hm.
    pose proof (Z.div_mod ((t * 100) mod 2 ^ 64) 100 ltac:(lia)) as Hd.
    pose proof (Z.mod_pos_bound ((t * 100) mod 2 ^ 64) 100 ltac:(lia)).
    rewrite E in Hd. lia.
  - intros Hlt. apply (rtc_time_reached t 0); unfold is_uint64; lia.
Qed.

(** ** Packing loses nothing *)

(** X4: two states whose packed [iflags] agree have the same unpacked
    [iflags], provided each [PRV] fits its two bits and the fields do
    not overlap. *)
Theorem read_iflags_injective (s1 s2 : machine_state) :
  0 <= IFLAGS_H_SHIFT <= 30 -> 0 <= IFLAGS_I_SHIFT <= 30 ->
  0 <= IFLAGS_PRV_SHIFT <= 29 ->
  IFLAGS_H_SHIFT <> IFLAGS_I_SHIFT ->
  IFLAGS_H_SHIFT <> IFLAGS_PRV_SHIFT ->
  IFLAGS_H_SHIFT <> IFLAGS_PRV_SHIFT + 1 ->
  IFLAGS_I_SHIFT <> IFLAGS_PRV_SHIFT ->
  IFLAGS_I_SHIFT <> IFLAGS_PRV_SHIFT + 1 ->
  0 <= iflags_PRV (iflags s1) < 4 -> 0 <= iflags_PRV (iflags s2) < 4 ->
  read_iflags s1 = read_iflags s2 -> iflags s1 = iflags s2.
Proof.
  intros Hh Hi Hp D1 D2 D3 D4 D5 P1 P2 E.
  pose proof (write_iflags_read_iflags s1 Hh Hi Hp D1 D2 D3 D4 D5 P1) as R1.
  pose proof (write_iflags_read_iflags s2 Hh Hi Hp D1 D2 D3 D4 D5 P2) as R2.
  apply (f_equal iflags) in R1, R2.
  rewrite <- R1, <- R2, E. reflexivity.
Qed.

(** ** Flushing the TLBs *)

Lemma store_at_length {A : Type} (i : nat) (x : A) (l : list A) :
  length (store_at i x l) = length l.
Proof.
  revert i. induction l as [|y l IH]; intros [|i]; cbn;
    try reflexivity. now rewrite IH.
Qed.

Lemma store_at_middle {A : Type} (x y : A) (pre post : list A) :
  store_at (length pre) x (pre ++ y :: post) = pre ++ x :: post.
Proof.
  induction pre as [|z pre IH]; cbn; [reflexivity|]. now rewrite IH.
Qed.

(** Storing [x] at indices [a], [a+1], ... over a list whose first [a]
    elements are [x] already. *)
Lemma store_at_sweep {A : Type} (x : A) (post : list A) (a : nat) :
  fold_left (fun l i => store_at i x l) (seq a (length post))
            (repeat x a ++ post)
  = repeat x (a + length post).
Proof.
  revert a. induction post as [|y post IH]; intros a.
  - cbn. now rewrite app_nil_r, Nat.add_0_r.
  - cbn [length seq fold_left].
    pose proof (store_at_middle x y (repeat x a) post) as M.
    rewrite repeat_length in M. rewrite M.
    replace (repeat x a ++ x :: post) with (repeat x (S a) ++ post)
      by (cbn [repeat]; rewrite repeat_cons, <- app_assoc; reflexivity).
    rewrite IH. f_equal. lia.
Qed.

Lemma init_tlb_fold (ixs : list nat) (t : tlbs_t) :
  fold_left init_tlb_at ixs t
  = mk_tlbs
      (fold_left (fun l i => store_at i invalid_tlb_entry l) ixs (tlb_read t))
      (fold_left (fun l i => store_at i invalid_tlb_entry l) ixs (tlb_write t))
      (fold_left (fun l i => store_at i invalid_tlb_entry l) ixs (tlb_code t)).
Proof.
  revert t. induction ixs as [|i ixs IH]; intros t; cbn [fold_left].
  - destruct t; reflexivity.
  - rewrite IH. reflexivity.
Qed.

(** X5: whatever the three TLBs held, after [init_tlb] each of their
    [TLB_SIZE] entries is the invalid entry: null PMA and host page,
    and all-ones virtual and physical pages. *)
Theorem init_tlb_all_invalid (t : tlbs_t) :
  length (tlb_read t) = TLB_SIZE -> length (tlb_write t) = TLB_SIZE ->
  length (tlb_code t) = TLB_SIZE ->
  init_tlb t = mk_tlbs (repeat invalid_tlb_entry TLB_SIZE)
                       (repeat invalid_tlb_entry TLB_SIZE)
                       (repeat invalid_tlb_entry TLB_SIZE) /\
  (forall i e, (i < TLB_SIZE)%nat ->
     (nth_error (tlb_read (init_tlb t)) i = Some e \/
      nth_error (tlb_write (init_tlb t)) i = Some e \/
      nth_error (tlb_code (init_tlb t)) i = Some e) ->
     vaddr_page e = 2 ^ 64 - 1 /\ paddr_page e = 2 ^ 64 - 1 /\
     tlb_pma e = None /\ hpage e = None).
Proof.
  intros Lr Lw Lc.
  assert (E : init_tlb t = mk_tlbs (repeat invalid_tlb_entry TLB_SIZE)
                                   (repeat invalid_tlb_entry TLB_SIZE)
                                   (repeat invalid_tlb_entry TLB_SIZE)).
  { unfold init_tlb. rewrite init_tlb_fold.
    pose proof (store_at_sweep invalid_tlb_entry (tlb_read t) 0) as Sr.
    pose proof (store_at_sweep invalid_tlb_entry (tlb_write t) 0) as Sw.
    pose proof (store_at_sweep invalid_tlb_entry (tlb_code t) 0) as Sc.
    rewrite Lr in Sr. rewrite Lw in Sw. rewrite Lc in Sc.
    cbn [repeat app Nat.add] in Sr, Sw, Sc.
    rewrite Sr, Sw, Sc. reflexivity. }
  split; [exact E|].
  intros i e Hi Hnth. rewrite E in Hnth. cbn [tlb_read tlb_write tlb_code] in Hnth.
  assert (He : e = invalid_tlb_entry).
  { assert (Hin : In e (repeat invalid_tlb_entry TLB_SIZE)).
    { destruct Hnth as [Hn|[Hn|Hn]]; exact (nth_error_In _ _ Hn). }
    exact (repeat_spec _ _ _ Hin). }
  rewrite He. repeat split; reflexivity.
Qed.


(** ** What a console poll delivers *)

(** X6: with no character pending and unread characters in the buffer,
    the console poll hands over the next buffered one and moves past
    it, without asking the host for input. *)
Theorem poll_console_buffered (w : world) :
  m_fromhost_pending (dev w) = false ->
  0 <= m_buf_pos (dev w) < m_buf_len (dev w) ->
  let w' := exec poll_console w in
  fromhost (htif (state w'))
  = getchar_word (nth (Z.to_nat (m_buf_pos (dev w))) (m_buf (dev w)) 0) /\
  m_fromhost_pending (dev w') = true /\
  m_buf_pos (dev w') = m_buf_pos (dev w) + 1 /\
  m_buf (dev w') = m_buf (dev w) /\
  m_buf_len (dev w') = m_buf_len (dev w) /\
  host w' = host w /\
  tohost (htif (state w')) = tohost (htif (state w)) /\
  iflags (state w') = iflags (state w).
Proof.
  intros Hp Hpos.
  destruct (poll_console_next w Hp Hpos) as (E1 & E2 & E3 & E4 & E5 & E6).
  destruct (poll_console_frame w) as (_ & _ & _ & _ & F5 & F6 & _).
  cbv zeta. rewrite E1, E2, E3, E4, E5, E6, F5, F6.
  repeat split; reflexivity.
Qed.

(** X7: with no character pending, an empty buffer and input ready on
    the host, the console poll reads at most a buffer's worth into the
    start of the buffer, hands over the first byte read and leaves the
    rest buffered; what did not fit stays with the host. *)
Theorem poll_console_reads (w : world) (b : Z) (data : list Z)
    (rest : list stdin_event) :
  m_fromhost_pending (dev w) = false ->
  m_buf_len (dev w) <= m_buf_pos (dev w) ->
  stdin (host w) = stdin_ready (b :: data) :: rest ->
  1 <= HTIF_CONSOLE_BUF_SIZE ->
  let got := firstn (Z.to_nat HTIF_CONSOLE_BUF_SIZE) (b :: data) in
  let w' := exec poll_console w in
  fromhost (htif (state w')) = getchar_word b /\
  m_fromhost_pending (dev w') = true /\
  m_buf_pos (dev w') = 1 /\
  m_buf_len (dev w') = Z.of_nat (length got) /\
  1 <= m_buf_len (dev w') <= HTIF_CONSOLE_BUF_SIZE /\
  m_buf (dev w') = got ++ skipn (length got) (m_buf (dev w)) /\
  stdin (host w')
  = match skipn (Z.to_nat HTIF_CONSOLE_BUF_SIZE) (b :: data) with
    | [] => rest
    | x :: more => stdin_ready (x :: more) :: rest
    end /\
  stdout (host w') = stdout (host w) /\
  tohost (htif (state w')) = tohost (htif (state w)) /\
  iflags (state w') = iflags (state w).
Proof.
  intros Hp Hlen Hin HB.
  destruct (poll_console_fill_next w b data rest Hp Hlen Hin HB)
    as (E1 & E2 & E3 & E4 & E5 & E6 & E7 & E8).
  destruct (poll_console_frame w) as (_ & _ & _ & _ & F5 & F6 & _).
  cbv zeta. rewrite F5, F6.
  repeat split; try assumption; try reflexivity; apply E5.
Qed.

(** X8: with no character pending, an empty buffer and standard input
    readable but handing over no byte, the [read] returning 0 at the
    end of the file or [-1] on an error, the console poll hands over
    CTRL+D (byte 4) as the single buffered character in either case. *)
Theorem poll_console_eof (w : world) (rest : list stdin_event) :
  m_fromhost_pending (dev w) = false ->
  m_buf_len (dev w) <= m_buf_pos (dev w) ->
  stdin (host w) = stdin_ready [] :: rest ->
  m_buf (dev w) <> [] ->
  let w' := exec poll_console w in
  eval (host_read_stdin HTIF_CONSOLE_BUF_SIZE) w
  = (if read_fails (host w) then -1 else 0) /\
  fromhost (htif (state w')) = getchar_word 4 /\
  fromhost (htif (state w')) = 2 ^ 56 + 4 /\
  m_fromhost_pending (dev w') = true /\
  m_buf_pos (dev w') = 1 /\ m_buf_len (dev w') = 1 /\
  nth 0 (m_buf (dev w')) 0 = 4 /\
  stdin (host w') = rest.
Proof.
  open_world w. intros -> Hlen -> Hbuf. cbv zeta. rewrite poll_console_run.
  cbn [dev m_fromhost_pending m_buf_pos m_buf_len m_buf negb].
  replace (len <=? pos) with true by (symmetry; apply Z.leb_le; lia).
  destruct buf as [|c buf]; [contradiction|].
  unfold poll_console_fill. step_world.
  rewrite firstn_nil, skipn_nil.
  destruct rerr;
    cbn [skipn length app Z.of_nat Z.leb Z.compare];
    step_world; unfold poll_console_deliver; step_world;
    cbn [Z.ltb Z.compare store_at Z.to_nat nth]; step_world;
    repeat split; reflexivity.
Qed.

Lemma poll_console_nothing (w : world) :
  m_fromhost_pending (dev w) = false ->
  m_buf_len (dev w) <= m_buf_pos (dev w) ->
  (forall data rest, stdin (host w) <> stdin_ready data :: rest) ->
  let w' := exec poll_console w in
  state w' = state w /\ dev w' = dev w /\
  stdout (host w') = stdout (host w) /\
  stdin (host w') = tl (stdin (host w)).
Proof.
  open_world w. intros -> Hlen Hidle. cbv zeta. rewrite poll_console_run.
  cbn [dev m_fromhost_pending m_buf_pos m_buf_len m_buf negb].
  replace (len <=? pos) with true by (symmetry; apply Z.leb_le; lia).
  destruct sin as [|[|data] rest];
    [| |exfalso; exact (Hidle data rest eq_refl)];
    unfold poll_console_fill; step_world;
    unfold poll_console_deliver; step_world;
    (replace (pos <? len) with false by (symmetry; apply Z.ltb_ge; lia));
    step_world; repeat split; reflexivity.
Qed.

(** X9: with no character pending, an empty buffer and nothing to read
    on the host, the console poll delivers nothing: the machine state
    and the HTIF object are as before. *)
Theorem poll_console_idle (w : world) :
  m_fromhost_pending (dev w) = false ->
  m_buf_len (dev w) <= m_buf_pos (dev w) ->
  (forall data rest, stdin (host w) <> stdin_ready data :: rest) ->
  let w' := exec poll_console w in
  state w' = state w /\ dev w' = dev w /\
  stdout (host w') = stdout (host w) /\
  stdin (host w') = tl (stdin (host w)) /\
  fromhost (htif (state w')) = fromhost (htif (state w)) /\
  m_fromhost_pending (dev w') = false.
Proof.
  intros Hp Hlen Hidle.
  destruct (poll_console_nothing w Hp Hlen Hidle) as (E1 & E2 & E3 & E4).
  cbv zeta. rewrite E1, E2, E3, E4.
  repeat split; try reflexivity. exact Hp.
Qed.

(** ** One character in flight *)

Lemma interact_pending_step (w : world) :
  m_fromhost_pending (dev w) = true ->
  let w' := exec interact w in
  state w' = state w /\ host w' = host w /\
  m_buf (dev w') = m_buf (dev w) /\
  m_buf_pos (dev w') = m_buf_pos (dev w) /\
  m_buf_len (dev w') = m_buf_len (dev w) /\
  m_fromhost_pending (dev w') = true.
Proof.
  open_world w. intros ->. cbv zeta. rewrite interact_run.
  cbn [dev m_interactive m_divisor_counter].
  destruct i; [|repeat split; reflexivity].
  destruct (HTIF_INTERACT_DIVISOR <=? cnt + 1);
    [rewrite poll_console_run|]; step_world; repeat split; reflexivity.
Qed.

(** X10: while a character is pending, any number of [interact] calls
    leave the machine state, the host and the buffer alone: the pending
    character is not overwritten and no input is consumed until the
    guest acknowledges it. *)
Theorem interact_n_pending (w : world) (n : nat) :
  m_fromhost_pending (dev w) = true ->
  let w' := interact_n n w in
  state w' = state w /\ host w' = host w /\
  m_buf (dev w') = m_buf (dev w) /\
  m_buf_pos (dev w') = m_buf_pos (dev w) /\
  m_buf_len (dev w') = m_buf_len (dev w) /\
  m_fromhost_pending (dev w') = true.
Proof.
  intros Hp. cbv zeta. induction n as [|n IH].
  - repeat split; try reflexivity. exact Hp.
  - destruct IH as (E1 & E2 & E3 & E4 & E5 & E6).
    rewrite interact_n_S.
    destruct (interact_pending_step (interact_n n w) E6)
      as (F1 & F2 & F3 & F4 & F5 & F6).
    repeat split; congruence.
Qed.


(** ** Acknowledged reads *)

Lemma htif_write_fromhost_run (val : Z) (w : world) :
  exec (htif_write_fromhost val) w =
  if m_interactive (dev w) then
    exec poll_console
      (exec reset_fromhost_pending (exec (write_htif_fromhost val) w))
  else exec (write_htif_fromhost val) w.
Proof.
  unfold htif_write_fromhost. rewrite !exec_bind.
  change (eval is_interactive (exec (write_htif_fromhost val) w))
    with (m_interactive (dev w)).
  destruct (m_interactive (dev w)); [rewrite exec_bind|]; reflexivity.
Qed.

(** A write to [fromhost] on an interactive HTIF with unread characters
    buffered: the written value is replaced by the next character. *)
Lemma htif_write_fromhost_next (val : Z) (w : world) :
  m_interactive (dev w) = true ->
  0 <= m_buf_pos (dev w) < m_buf_len (dev w) ->
  let w' := exec (htif_write_fromhost val) w in
  fromhost (htif (state w'))
  = getchar_word (nth (Z.to_nat (m_buf_pos (dev w))) (m_buf (dev w)) 0) /\
  m_fromhost_pending (dev w') = true /\
  m_buf_pos (dev w') = m_buf_pos (dev w) + 1 /\
  m_buf (dev w') = m_buf (dev w) /\
  m_buf_len (dev w') = m_buf_len (dev w) /\
  host w' = host w /\
  m_interactive (dev w') = true.
Proof.
  intros Hi Hpos. cbv zeta. rewrite htif_write_fromhost_run, Hi.
  set (w1 := exec reset_fromhost_pending (exec (write_htif_fromhost val) w)).
  assert (P1 : m_fromhost_pending (dev w1) = false) by reflexivity.
  assert (P2 : 0 <= m_buf_pos (dev w1) < m_buf_len (dev w1)) by exact Hpos.
  destruct (poll_console_next w1 P1 P2) as (E1 & E2 & E3 & E4 & E5 & E6).
  destruct (poll_console_frame w1) as (F1 & _).
  rewrite E1, E2, E3, E4, E5, E6, F1.
  repeat split; try reflexivity. exact Hi.
Qed.

Lemma write_fromhost_all_next (vals : list Z) (w : world) :
  m_interactive (dev w) = true ->
  0 <= m_buf_pos (dev w) ->
  m_buf_pos (dev w) + Z.of_nat (length vals) <= m_buf_len (dev w) ->
  fromhost (htif (state w))
  = getchar_word (nth (Z.to_nat (m_buf_pos (dev w) - 1)) (m_buf (dev w)) 0) ->
  let w' := write_fromhost_all vals w in
  fromhost (htif (state w'))
  = getchar_word
      (nth (Z.to_nat (m_buf_pos (dev w) + Z.of_nat (length vals) - 1))
           (m_buf (dev w)) 0) /\
  m_buf_pos (dev w') = m_buf_pos (dev w) + Z.of_nat (length vals) /\
  host w' = host w.
Proof.
  revert w. induction vals as [|v vals IH]; intros w Hi Hpos Hlen Hfrom.
  - cbn [length Z.of_nat write_fromhost_all fold_left].
    rewrite !Z.add_0_r. repeat split. exact Hfrom.
  - cbn [length] in Hlen |- *. rewrite Nat2Z.inj_succ in Hlen |- *.
    change (write_fromhost_all (v :: vals) w)
      with (write_fromhost_all vals (exec (htif_write_fromhost v) w)).
    destruct (htif_write_fromhost_next v w Hi ltac:(lia))
      as (E1 & _ & E3 & E4 & E5 & E6 & E7).
    destruct (IH (exec (htif_write_fromhost v) w)) as (G1 & G2 & G3).
    + exact E7.
    + lia.
    + rewrite E3, E5. lia.
    + rewrite E1, E3, E4. do 2 f_equal. lia.
    + rewrite G1, G2, G3, E3, E4, E6.
      repeat split; try lia. do 2 f_equal. lia.
Qed.

(** X11: on an interactive HTIF, a line the host had ready is handed to
    the guest byte by byte in the order it was typed: the poll delivers
    its first byte, and the [k]-th write to [fromhost] after that
    leaves byte [k] there, replacing whatever the guest wrote. *)
Theorem getchar_in_order (w : world) (b : Z) (data : list Z)
    (rest : list stdin_event) (vals : list Z) :
  m_interactive (dev w) = true ->
  m_fromhost_pending (dev w) = false ->
  m_buf_len (dev w) <= m_buf_pos (dev w) ->
  stdin (host w) = stdin_ready (b :: data) :: rest ->
  Z.of_nat (length (b :: data)) <= HTIF_CONSOLE_BUF_SIZE ->
  (length vals <= length data)%nat ->
  fromhost (htif (state (write_fromhost_all vals (exec poll_console w))))
  = getchar_word (nth (length vals) (b :: data) 0).
Proof.
  intros Hi Hp Hlen Hin HB Hvals.
  destruct (poll_console_fill_next w b data rest Hp Hlen Hin)
    as (E1 & _ & E3 & E4 & _ & E6 & _); [cbn [length] in HB; lia|].
  destruct (poll_console_frame w) as (F1 & _).
  rewrite firstn_all2 in E4, E6 by lia.
  set (w1 := exec poll_console w) in *.
  destruct (write_fromhost_all_next vals w1) as (G1 & _).
  - rewrite F1. exact Hi.
  - rewrite E3. lia.
  - rewrite E3, E4. cbn [length]. lia.
  - rewrite E1, E3, E6. reflexivity.
  - rewrite G1, E3, E6.
    replace (Z.to_nat (1 + Z.of_nat (length vals) - 1)) with (length vals)
      by lia.
    rewrite app_nth1 by (cbn [length]; lia). reflexivity.
Qed.

(** ** The poll period *)

(** X12: on an interactive HTIF whose counter is below the divisor, [n]
    consecutive [interact] calls poll exactly
    [(counter + n) / HTIF_INTERACT_DIVISOR] times and leave the counter
    at [(counter + n) mod HTIF_INTERACT_DIVISOR]: the console is
    polled on every [HTIF_INTERACT_DIVISOR]-th call, no more and no
    less. *)
Theorem interact_n_polls (w : world) (n : nat) :
  m_interactive (dev w) = true ->
  0 <= m_divisor_counter (dev w) < HTIF_INTERACT_DIVISOR ->
  Z.of_nat (console_polls (interact_n n w))
  = Z.of_nat (console_polls w)
    + (m_divisor_counter (dev w) + Z.of_nat n) / HTIF_INTERACT_DIVISOR /\
  m_divisor_counter (dev (interact_n n w))
  = (m_divisor_counter (dev w) + Z.of_nat n) mod HTIF_INTERACT_DIVISOR.
Proof.
  intros Hi Hc. induction n as [|n [IHp IHc]].
  - change (interact_n 0 w) with w. change (Z.of_nat 0) with 0.
    rewrite Z.add_0_r, Z.div_small, Z.mod_small by lia.
    split; [lia|reflexivity].
  - rewrite interact_n_S, Nat2Z.inj_succ.
    set (c := m_divisor_counter (dev w)) in *.
    set (wn := interact_n n w) in *.
    pose proof (Z.div_mod (c + Z.of_nat n) HTIF_INTERACT_DIVISOR ltac:(lia))
      as Hd.
    pose proof (Z.mod_pos_bound (c + Z.of_nat n) HTIF_INTERACT_DIVISOR
                  ltac:(lia)) as Hm.
    assert (Hin : m_interactive (dev wn) = true)
      by (unfold wn; rewrite interact_n_interactive; exact Hi).
    destruct (Z.le_gt_cases HTIF_INTERACT_DIVISOR
                (m_divisor_counter (dev wn) + 1)) as [Hge|Hlt].
    + destruct (interact_poll wn Hin Hge) as [P C]. rewrite P, C.
      rewrite Nat2Z.inj_succ, IHp.
      split.
      * rewrite <- (Z.div_unique_pos (c + Z.succ (Z.of_nat n))
                      HTIF_INTERACT_DIVISOR
                      ((c + Z.of_nat n) / HTIF_INTERACT_DIVISOR + 1) 0);
          lia.
      * apply (Z.mod_unique_pos _ _
                 ((c + Z.of_nat n) / HTIF_INTERACT_DIVISOR + 1)); lia.
    + rewrite (interact_skip wn Hin Hlt).
      cbn [exec snd modify_dev dev console_polls with_divisor_counter
           m_divisor_counter].
      rewrite IHp.
      split.
      * rewrite <- (Z.div_unique_pos (c + Z.succ (Z.of_nat n))
                      HTIF_INTERACT_DIVISOR
                      ((c + Z.of_nat n) / HTIF_INTERACT_DIVISOR)
                      (m_divisor_counter (dev wn) + 1));
          lia.
      * apply (Z.mod_unique_pos _ _
                 ((c + Z.of_nat n) / HTIF_INTERACT_DIVISOR)); lia.
Qed.


(** ** What HTIF operations leave alone *)

Ltac step_state :=
  cbv [set_iflags_H set_brk_from_iflags_H with_iflags with_brk
       htif_write_halt htif_write_putchar htif_write_getchar];
  step_world;
  cbn [iflags_PRV iflags_I iflags_H].

Ltac solve_ops_frame :=
  unfold ops_frame; step_state;
  repeat match goal with |- _ /\ _ => split end;
  try reflexivity; try (intros; assumption);
  try (exists []; symmetry; apply app_nil_r).

Lemma ops_frame_refl (w : world) : ops_frame w w.
Proof. solve_ops_frame. Qed.

Lemma ops_frame_trans (w1 w2 w3 : world) :
  ops_frame w1 w2 -> ops_frame w2 w3 -> ops_frame w1 w3.
Proof.
  unfold ops_frame.
  intros (A1 & A2 & A3 & A4 & A5 & A6 & A7 & A8 & A9 & o1 & A10)
         (B1 & B2 & B3 & B4 & B5 & B6 & B7 & B8 & B9 & o2 & B10).
  repeat match goal with |- _ /\ _ => split end;
    try congruence; try (intros; auto).
  exists (o1 ++ o2). rewrite B10, A10. symmetry. apply app_assoc.
Qed.

Lemma poll_console_deliver_ops_frame (w : world) :
  ops_frame w (exec poll_console_deliver w).
Proof.
  open_world w. unfold poll_console_deliver. step_world.
  destruct (pos <? len); solve_ops_frame.
Qed.

Lemma poll_console_fill_ops_frame (w : world) :
  ops_frame w (exec poll_console_fill w).
Proof.
  destruct (poll_console_fill_frame w) as ((F1 & _ & _ & F4 & _) & _ & F).
  unfold ops_frame. rewrite F, F1, F4.
  repeat match goal with |- _ /\ _ => split end;
    try reflexivity; try (intros; assumption).
  exists []. symmetry. apply app_nil_r.
Qed.

Lemma poll_console_ops_frame (w : world) :
  ops_frame w (exec poll_console w).
Proof.
  rewrite poll_console_run.
  destruct (m_fromhost_pending (dev w)); cbn [negb]; [solve_ops_frame|].
  apply (ops_frame_trans _ (exec count_console_poll w));
    [solve_ops_frame|].
  eapply ops_frame_trans; [|apply poll_console_deliver_ops_frame].
  destruct (m_buf_len (dev w) <=? m_buf_pos (dev w));
    [apply poll_console_fill_ops_frame|apply ops_frame_refl].
Qed.

Lemma interact_ops_frame (w : world) : ops_frame w (exec interact w).
Proof.
  rewrite interact_run.
  destruct (m_interactive (dev w)); [|apply ops_frame_refl].
  destruct (HTIF_INTERACT_DIVISOR <=? m_divisor_counter (dev w) + 1);
    [|solve_ops_frame].
  eapply ops_frame_trans; [|apply poll_console_ops_frame].
  solve_ops_frame.
Qed.

Lemma htif_write_tohost_ops_frame (v : Z) (w : world) :
  ops_frame w (exec (htif_write_tohost v) w) /\
  dev (exec (htif_write_tohost v) w) = dev w /\
  stdin (host (exec (htif_write_tohost v) w)) = stdin (host w) /\
  console_polls (exec (htif_write_tohost v) w) = console_polls w.
Proof.
  unfold exec at 1 2 3 4. rewrite htif_write_tohost_run. cbv zeta.
  destruct ((tohost_device v =? 0) && (tohost_cmd v =? 0)
            && Z.odd (tohost_payload v)).
  { split; [solve_ops_frame|repeat split; reflexivity]. }
  destruct ((tohost_device v =? 1) && (tohost_cmd v =? 1)).
  { rewrite htif_write_putchar_run, host_write_stdout_run. cbn [snd].
    split; [|repeat split; reflexivity].
    unfold ops_frame; step_state.
    repeat match goal with |- _ /\ _ => split end;
      try reflexivity; try (intros; assumption).
    eexists. reflexivity. }
  destruct ((tohost_device v =? 1) && (tohost_cmd v =? 0));
    (split; [solve_ops_frame|repeat split; reflexivity]).
Qed.

Lemma htif_write_fromhost_ops_frame (val : Z) (w : world) :
  ops_frame w (exec (htif_write_fromhost val) w).
Proof.
  rewrite htif_write_fromhost_run.
  destruct (m_interactive (dev w)); [|solve_ops_frame].
  eapply ops_frame_trans; [|apply poll_console_ops_frame].
  solve_ops_frame.
Qed.

Lemma htif_read_exec (offset size_log2 : Z) (w : world) :
  exec (htif_read offset size_log2) w = w.
Proof.
  unfold htif_read.
  destruct (negb (size_log2 =? 3) || to_bool (Z.land offset 7));
    [reflexivity|].
  destruct (offset =? HTIF_TOHOST_REL_ADDR); [reflexivity|].
  destruct (offset =? HTIF_FROMHOST_REL_ADDR); reflexivity.
Qed.

Lemma run_op_ops_frame (o : htif_op) (w : world) : ops_frame w (run_op w o).
Proof.
  destruct o as [offset size_log2|offset val size_log2|]; cbn [run_op].
  - rewrite htif_read_exec. apply ops_frame_refl.
  - unfold htif_write.
    destruct (negb (size_log2 =? 3) || to_bool (Z.land offset 7));
      [apply ops_frame_refl|].
    destruct (offset =? HTIF_TOHOST_REL_ADDR);
      [apply htif_write_tohost_ops_frame|].
    destruct (offset =? HTIF_FROMHOST_REL_ADDR);
      [apply htif_write_fromhost_ops_frame|apply ops_frame_refl].
  - apply interact_ops_frame.
Qed.

(** X13: no sequence of HTIF reads, writes and [interact] calls clears
    [iflags.H] or [brk] once set, changes the privilege level, the idle
    flag, [mcycle], [mip], [mie] or the CLINT, or takes back what was
    written to standard output. *)
Theorem run_ops_frame (ops : list htif_op) (w : world) :
  ops_frame w (run_ops ops w).
Proof.
  revert w. induction ops as [|o ops IH]; intros w.
  - apply ops_frame_refl.
  - change (run_ops (o :: ops) w) with (run_ops ops (run_op w o)).
    eapply ops_frame_trans; [apply run_op_ops_frame|apply IH].
Qed.

(** X14: a write to [tohost], whatever the word, returns true, leaves
    the HTIF object and the host's input untouched and runs no console
    poll. *)
Theorem htif_write_tohost_no_input (v : Z) (w : world) :
  eval (htif_write_tohost v) w = true /\
  dev (exec (htif_write_tohost v) w) = dev w /\
  stdin (host (exec (htif_write_tohost v) w)) = stdin (host w) /\
  console_polls (exec (htif_write_tohost v) w) = console_polls w.
Proof.
  split; [apply htif_write_tohost_true|].
  apply (htif_write_tohost_ops_frame v w).
Qed.


(** ** The console buffer stays in bounds *)

Ltac solve_buf_inv :=
  step_world;
  repeat match goal with |- _ /\ _ => split end;
  rewrite ?store_at_length, ?length_app, ?length_skipn, ?length_firstn;
  try assumption; try lia.

Lemma poll_console_buf_inv (w : world) :
  1 <= HTIF_CONSOLE_BUF_SIZE ->
  buf_inv (dev w) -> buf_inv (dev (exec poll_console w)).
Proof.
  open_world w. unfold buf_inv.
  cbn [m_buf m_buf_pos m_buf_len]. intros HB (L & P & Lb).
  rewrite poll_console_run.
  cbn [dev m_fromhost_pending m_buf_pos m_buf_len m_buf].
  destruct pend; cbn [negb]; [solve_buf_inv|].
  destruct (len <=? pos) eqn:E1.
  - apply Z.leb_le in E1.
    destruct sin as [|[|data] rest]; unfold poll_console_fill; step_world.
    + unfold poll_console_deliver. step_world.
      replace (pos <? len) with false by (symmetry; apply Z.ltb_ge; lia).
      solve_buf_inv.
    + unfold poll_console_deliver. step_world.
      replace (pos <? len) with false by (symmetry; apply Z.ltb_ge; lia).
      solve_buf_inv.
    + pose proof (firstn_le_length (Z.to_nat HTIF_CONSOLE_BUF_SIZE) data)
        as Hk.
      destruct (firstn (Z.to_nat HTIF_CONSOLE_BUF_SIZE) data) as [|g gs].
      * destruct rerr; cbn [Z.leb Z.compare]; step_world;
          unfold poll_console_deliver; step_world;
          cbn [Z.ltb Z.compare]; solve_buf_inv; cbn [length]; lia.
      * replace (Z.of_nat (length (g :: gs)) <=? 0) with false
          by (cbn [length]; symmetry; apply Z.leb_gt; lia).
        step_world. unfold poll_console_deliver. step_world.
        replace (0 <? Z.of_nat (length (g :: gs))) with true
          by (cbn [length]; symmetry; apply Z.ltb_lt; lia).
        solve_buf_inv; cbn [length] in *; try lia.
  - apply Z.leb_gt in E1. unfold poll_console_deliver. step_world.
    replace (pos <? len) with true by (symmetry; apply Z.ltb_lt; lia).
    solve_buf_inv.
Qed.

Lemma interact_buf_inv (w : world) :
  1 <= HTIF_CONSOLE_BUF_SIZE ->
  buf_inv (dev w) -> buf_inv (dev (exec interact w)).
Proof.
  intros HB Hinv. rewrite interact_run.
  destruct (m_interactive (dev w)); [|exact Hinv].
  destruct (HTIF_INTERACT_DIVISOR <=? m_divisor_counter (dev w) + 1);
    [|exact Hinv].
  apply poll_console_buf_inv; [exact HB|exact Hinv].
Qed.

Lemma run_op_buf_inv (o : htif_op) (w : world) :
  1 <= HTIF_CONSOLE_BUF_SIZE ->
  buf_inv (dev w) -> buf_inv (dev (run_op w o)).
Proof.
  intros HB Hinv.
  destruct o as [offset size_log2|offset val size_log2|]; cbn [run_op].
  - rewrite htif_read_exec. exact Hinv.
  - unfold htif_write.
    destruct (negb (size_log2 =? 3) || to_bool (Z.land offset 7));
      [exact Hinv|].
    destruct (offset =? HTIF_TOHOST_REL_ADDR).
    { destruct (htif_write_tohost_ops_frame val w) as (_ & E & _).
      rewrite E. exact Hinv. }
    destruct (offset =? HTIF_FROMHOST_REL_ADDR); [|exact Hinv].
    rewrite htif_write_fromhost_run.
    destruct (m_interactive (dev w)); [|exact Hinv].
    apply poll_console_buf_inv; [exact HB|exact Hinv].
  - apply interact_buf_inv; assumption.
Qed.

(** X15: the constructor leaves the console buffer empty and of its
    declared size, and every sequence of HTIF operations keeps
    [0 <= m_buf_pos <= m_buf_len <= sizeof(m_buf)] with the buffer at
    that size; so the character [poll_console] takes when
    [m_buf_pos < m_buf_len] lies inside the buffer. *)
Theorem buf_inv_kept (i : bool) (ops : list htif_op) (w : world) :
  1 <= HTIF_CONSOLE_BUF_SIZE ->
  buf_inv (htif_new i) /\
  (buf_inv (dev w) ->
   buf_inv (dev (run_ops ops w)) /\
   (m_buf_pos (dev (run_ops ops w)) < m_buf_len (dev (run_ops ops w)) ->
    (Z.to_nat (m_buf_pos (dev (run_ops ops w)))
     < length (m_buf (dev (run_ops ops w))))%nat)).
Proof.
  intros HB. split.
  - unfold buf_inv, htif_new. cbn [m_buf m_buf_pos m_buf_len].
    rewrite repeat_length. lia.
  - intros Hinv.
    assert (K : buf_inv (dev (run_ops ops w))).
    { revert w Hinv. induction ops as [|o ops IH]; intros w Hinv;
        [exact Hinv|].
      change (run_ops (o :: ops) w) with (run_ops ops (run_op w o)).
      apply IH, run_op_buf_inv; assumption. }
    split; [exact K|].
    destruct K as (L & P & Lb). intros Hlt. lia.
Qed.


(** ** The words on the wire *)

Lemma getchar_word_add (b : Z) :
  0 <= b < 256 -> getchar_word b = 2 ^ 56 + b.
Proof.
  intros Hb. unfold getchar_word.
  change (Z.lor (Z.shiftl 1 56) (Z.shiftl 0 48)) with (2 ^ 56).
  assert (D : Z.land (2 ^ 56) b = 0).
  { apply Z.bits_inj'. intros n Hn.
    rewrite Z.land_spec, Z.bits_0, Z.pow2_bits_eqb by lia.
    destruct (Z.eqb_spec 56 n) as [<-|_]; [|reflexivity].
    rewrite <- (Z.mod_small b (2 ^ 8)) by (change (2 ^ 8) with 256; lia).
    rewrite Z.mod_pow2_bits_high by lia. reflexivity. }
  rewrite <- Z.lxor_lor by exact D. symmetry.
  apply Z.add_nocarry_lxor. exact D.
Qed.

(** X16: the word [poll_console] stores in [fromhost] for a byte is a
    64-bit word that the decoding of [htif_write_tohost] reads back as
    device 1, cmd 0 and that byte as payload. *)
Theorem getchar_word_decodes (b : Z) :
  0 <= b < 256 ->
  is_uint64 (getchar_word b) /\
  tohost_device (getchar_word b) = 1 /\
  tohost_cmd (getchar_word b) = 0 /\
  tohost_payload (getchar_word b) = b.
Proof.
  intros Hb.
  assert (Hu : is_uint64 (getchar_word b)).
  { rewrite (getchar_word_add b Hb). unfold is_uint64.
    change (2 ^ 56) with 72057594037927936.
    change (2 ^ 64) with 18446744073709551616. lia. }
  split; [exact Hu|].
  rewrite (tohost_device_bits _ Hu), tohost_cmd_bits, tohost_payload_bits.
  rewrite (getchar_word_add b Hb). unfold word_bits.
  change (63 - 56 + 1) with 8. change (55 - 48 + 1) with 8.
  change (47 - 0 + 1) with 48.
  change (2 ^ 56) with 72057594037927936.
  change (2 ^ 48) with 281474976710656.
  change (2 ^ 8) with 256. change (2 ^ 0) with 1.
  repeat split; Z.div_mod_to_equations; lia.
Qed.

(** ** Reading back what was written *)

Lemma putchar_byte (v : Z) :
  to_uint8 (Z.land (word_bits v 47 0) 255) = v mod 256.
Proof.
  unfold word_bits, to_uint8. change 255 with (Z.ones 8).
  rewrite Z.land_ones, Z.pow_0_r, Z.div_1_r by lia.
  change (47 - 0 + 1) with 48. change (2 ^ 8) with 256.
  rewrite Z.mod_mod by lia.
  replace (2 ^ 48) with (256 * 2 ^ 40) by reflexivity.
  rewrite Z.rem_mul_r by lia.
  rewrite Z.mul_comm, Z.mod_add by lia.
  now rewrite Z.mod_mod by lia.
Qed.

(** The state and the output after a write to [tohost], by command. *)
Lemma htif_write_tohost_effect (v : Z) (w : world) :
  is_uint64 v ->
  tohost (htif (state (exec (htif_write_tohost v) w)))
  = (if (word_bits v 63 56 =? 1)
        && ((word_bits v 55 48 =? 0) || (word_bits v 55 48 =? 1))
     then 0 else v) /\
  stdout (host (exec (htif_write_tohost v) w))
  = stdout (host w)
    ++ (if is_putchar_word v
        then if hd true (write_results (host w)) then [v mod 256] else []
        else []) /\
  write_results (host (exec (htif_write_tohost v) w))
  = (if is_putchar_word v then tl (write_results (host w))
     else write_results (host w)).
Proof.
  intros Hv. unfold exec, is_putchar_word. rewrite htif_write_tohost_run.
  rewrite (tohost_device_bits v Hv), tohost_cmd_bits, tohost_payload_bits.
  cbv zeta. rewrite htif_write_putchar_run, putchar_byte.
  rewrite host_write_stdout_run.
  destruct (word_bits v 63 56 =? 0) eqn:D0;
    destruct (word_bits v 63 56 =? 1) eqn:D1;
    destruct (word_bits v 55 48 =? 0) eqn:C0;
    destruct (word_bits v 55 48 =? 1) eqn:C1;
    destruct (Z.odd (word_bits v 47 0));
    rewrite ?Z.eqb_eq, ?Z.eqb_neq in *;
    try (exfalso; lia);
    cbn [andb orb]; step_state; rewrite ?app_nil_r;
    repeat split; reflexivity.
Qed.

(** X17: through the driver callbacks, a 64-bit read of [tohost] after
    a write of [v] returns 0 when [v] was a console command (device 1,
    cmd 0 or 1) and [v] itself otherwise; on a non-interactive HTIF a
    read of [fromhost] after a write returns the written value. *)
Theorem htif_write_then_read (v : Z) (w : world) :
  is_uint64 v ->
  eval (htif_read 0 3) (exec (htif_write 0 v 3) w)
  = Some (if (word_bits v 63 56 =? 1)
             && ((word_bits v 55 48 =? 0) || (word_bits v 55 48 =? 1))
          then 0 else v) /\
  (m_interactive (dev w) = false ->
   eval (htif_read 8 3) (exec (htif_write 8 v 3) w) = Some v).
Proof.
  intros Hv. split.
  - change (htif_write 0 v 3) with (htif_write_tohost v).
    rewrite <- (proj1 (htif_write_tohost_effect v w Hv)). reflexivity.
  - intros Hni. change (htif_write 8 v 3) with (htif_write_fromhost v).
    rewrite htif_write_fromhost_run, Hni. reflexivity.
Qed.

Lemma accepted_bytes_all (results : list bool) (bs : list Z) :
  (forall r, In r results -> r = true) -> accepted_bytes results bs = bs.
Proof.
  revert results. induction bs as [|b bs IH]; intros results Hall;
    [reflexivity|].
  cbn [accepted_bytes].
  destruct results as [|r results]; cbn [hd tl].
  - rewrite IH by (intros r []). reflexivity.
  - rewrite (Hall r (or_introl eq_refl)).
    rewrite IH by (intros x Hx; apply Hall; right; exact Hx). reflexivity.
Qed.

Lemma skipn_S_tl {A : Type} (n : nat) (l : list A) :
  skipn (S n) l = skipn n (tl l).
Proof.
  destruct l as [|x l]; cbn [skipn tl]; [rewrite skipn_nil|]; reflexivity.
Qed.

Lemma write_tohost_all_stdout (vs : list Z) (w : world) :
  (forall v, In v vs -> is_uint64 v) ->
  stdout (host (write_tohost_all vs w))
  = stdout (host w)
    ++ accepted_bytes (write_results (host w))
         (map (fun v => v mod 256) (filter is_putchar_word vs)) /\
  write_results (host (write_tohost_all vs w))
  = skipn (length (filter is_putchar_word vs)) (write_results (host w)).
Proof.
  revert w. induction vs as [|v vs IH]; intros w Hvs.
  - cbn. now rewrite app_nil_r.
  - change (write_tohost_all (v :: vs) w)
      with (write_tohost_all vs (exec (htif_write_tohost v) w)).
    destruct (IH (exec (htif_write_tohost v) w)) as [IHo IHr];
      [intros x Hx; apply Hvs; right; exact Hx|].
    rewrite IHo, IHr.
    destruct (htif_write_tohost_effect v w (Hvs v (or_introl eq_refl)))
      as (_ & Eo & Er).
    rewrite Eo, Er.
    cbn [filter]. destruct (is_putchar_word v);
      cbn [map accepted_bytes length]; rewrite <- app_assoc;
      [rewrite skipn_S_tl|]; split; reflexivity.
Qed.

(** X18: each putchar word of a sequence of writes to [tohost] costs
    one [write] on standard output, and no other word costs one; the
    bytes that reach standard output are the low bytes of the putchar
    words whose [write] succeeded, in the order they were written, and
    all of them when no [write] fails. *)
Theorem stdout_in_order (vs : list Z) (w : world) :
  (forall v, In v vs -> is_uint64 v) ->
  stdout (host (write_tohost_all vs w))
  = stdout (host w)
    ++ accepted_bytes (write_results (host w))
         (map (fun v => v mod 256) (filter is_putchar_word vs)) /\
  ((forall r, In r (write_results (host w)) -> r = true) ->
   stdout (host (write_tohost_all vs w))
   = stdout (host w)
     ++ map (fun v => v mod 256) (filter is_putchar_word vs)) /\
  write_results (host (write_tohost_all vs w))
  = skipn (length (filter is_putchar_word vs)) (write_results (host w)).
Proof.
  intros Hvs. destruct (write_tohost_all_stdout vs w Hvs) as [Eo Er].
  split; [exact Eo|]. split; [|exact Er].
  intros Hall. rewrite Eo.
  rewrite accepted_bytes_all by exact Hall. reflexivity.
Qed.

(** ** Peeking at the registers *)

Lemma htif_read_some (offset : Z) (w : world) (v : Z) :
  eval (htif_read offset 3) w = Some v ->
  offset = 0 /\ v = tohost (htif (state w)) \/
  offset = 8 /\ v = fromhost (htif (state w)).
Proof.
  unfold htif_read.
  destruct (negb (3 =? 3) || to_bool (Z.land offset 7)); [discriminate|].
  destruct (offset =? HTIF_TOHOST_REL_ADDR) eqn:E0.
  { apply Z.eqb_eq in E0. intros E. left. split; [exact E0|].
    injection E as <-. reflexivity. }
  destruct (offset =? HTIF_FROMHOST_REL_ADDR) eqn:E8; [|discriminate].
  apply Z.eqb_eq in E8. intros E. right. split; [exact E8|].
  injection E as <-. reflexivity.
Qed.

(** X19: what the peek callback returns does not depend on what
    [scratch] held, and the page it builds for page 0 shows, at each
    register's offset, the value a 64-bit read of that register
    returns. *)
Theorem htif_peek_matches_read (w : world) (pma_length page_offset : Z)
    (scratch scratch' : list Z) :
  16 <= PMA_PAGE_SIZE ->
  length scratch = Z.to_nat PMA_PAGE_SIZE ->
  length scratch' = Z.to_nat PMA_PAGE_SIZE ->
  is_uint64 (tohost (htif (state w))) ->
  is_uint64 (fromhost (htif (state w))) ->
  htif_peek pma_length (state w) page_offset scratch
  = htif_peek pma_length (state w) page_offset scratch' /\
  (0 < pma_length ->
   forall offset v,
     eval (htif_read offset 3) w = Some v ->
     exists page,
       htif_peek pma_length (state w) 0 scratch = (true, page_scratch page) /\
       le_word (firstn 8 (skipn (Z.to_nat offset) page)) = v).
Proof.
  intros Hp Hl Hl' Ht Hf. split.
  - unfold htif_peek.
    rewrite (htif_peek_scratch _ _ scratch Hp Hl).
    rewrite (htif_peek_scratch _ _ scratch' Hp Hl'). reflexivity.
  - intros Hlen offset v Hread. unfold htif_peek.
    rewrite Z.mod_0_l by lia.
    apply Z.leb_gt in Hlen. rewrite Hlen. cbn [Z.eqb negb orb].
    rewrite (htif_peek_scratch _ _ scratch Hp Hl).
    eexists. split; [reflexivity|].
    destruct (htif_read_some offset w v Hread) as [[-> ->]|[-> ->]].
    + change (Z.to_nat 0) with 0%nat. cbn [skipn].
      rewrite firstn_app, le_bytes_length.
      change (8 - 8)%nat with 0%nat. rewrite firstn_O, app_nil_r.
      rewrite firstn_all2 by (rewrite le_bytes_length; lia).
      apply le_word_le_bytes_u64, Ht.
    + change (Z.to_nat 8) with 8%nat.
      rewrite skipn_app, le_bytes_length.
      change (8 - 8)%nat with 0%nat.
      rewrite skipn_all2 by (rewrite le_bytes_length; lia).
      cbn [app skipn].
      rewrite firstn_app, le_bytes_length.
      change (8 - 8)%nat with 0%nat. rewrite firstn_O, app_nil_r.
      rewrite firstn_all2 by (rewrite le_bytes_length; lia).
      apply le_word_le_bytes_u64, Hf.
Qed.


(** ** Acknowledging with nothing to deliver *)

(** X20: a write to [fromhost] when no character is buffered and the
    host has nothing to read leaves the written value in [fromhost];
    an interactive HTIF clears its pending flag, a non-interactive one
    is not touched at all. *)
Theorem htif_write_fromhost_nothing (val : Z) (w : world) :
  m_buf_len (dev w) <= m_buf_pos (dev w) ->
  (forall data rest, stdin (host w) <> stdin_ready data :: rest) ->
  let w' := exec (htif_write_fromhost val) w in
  fromhost (htif (state w')) = val /\
  tohost (htif (state w')) = tohost (htif (state w)) /\
  (m_interactive (dev w) = true -> m_fromhost_pending (dev w') = false) /\
  (m_interactive (dev w) = false -> dev w' = dev w /\ host w' = host w).
Proof.
  intros Hlen Hidle. cbv zeta. rewrite htif_write_fromhost_run.
  destruct (m_interactive (dev w)).
  - set (w1 := exec reset_fromhost_pending
                 (exec (write_htif_fromhost val) w)).
    destruct (poll_console_nothing w1) as (E & D & _);
      [reflexivity|exact Hlen|exact Hidle|].
    rewrite E, D.
    split; [reflexivity|]. split; [reflexivity|].
    split; [reflexivity|discriminate].
  - split; [reflexivity|]. split; [reflexivity|].
    split; [discriminate|]. intros _. split; reflexivity.
Qed.

(** ** The halt in the packed register *)

Lemma htif_write_tohost_halt_iflags (v : Z) (w : world) :
  is_uint64 v ->
  word_bits v 63 56 = 0 -> word_bits v 55 48 = 0 ->
  Z.odd (word_bits v 47 0) = true ->
  iflags (state (exec (htif_write_tohost v) w))
  = mk_iflags (iflags_PRV (iflags (state w)))
              (iflags_I (iflags (state w))) true.
Proof.
  intros Hv Hd Hc Hp. unfold exec. rewrite htif_write_tohost_run.
  rewrite (tohost_device_bits v Hv), tohost_cmd_bits, tohost_payload_bits.
  rewrite Hd, Hc, Hp. reflexivity.
Qed.

(** X21: after a halting write to [tohost], [read_iflags] has the bit
    at [IFLAGS_H_SHIFT] set: the halt shows in the packed register. *)
Theorem halt_shows_in_read_iflags (v : Z) (w : world) :
  0 <= IFLAGS_H_SHIFT <= 30 -> 0 <= IFLAGS_I_SHIFT <= 30 ->
  0 <= IFLAGS_PRV_SHIFT <= 29 ->
  0 <= iflags_PRV (iflags (state w)) < 4 ->
  is_uint64 v ->
  word_bits v 63 56 = 0 -> word_bits v 55 48 = 0 ->
  Z.odd (word_bits v 47 0) = true ->
  Z.testbit (read_iflags (state (exec (htif_write_tohost v) w)))
            IFLAGS_H_SHIFT = true.
Proof.
  intros Hh Hi Hp Hprv Hv Hd Hc Ho.
  pose proof (htif_write_tohost_halt_iflags v w Hv Hd Hc Ho) as E.
  rewrite read_iflags_testbit; try assumption; try lia.
  - rewrite E. cbn [iflags_H]. rewrite Z.eqb_refl.
    cbn [andb]. apply orb_true_r.
  - rewrite E. exact Hprv.
Qed.

End Constants.

(** * Concrete runs *)

(** C1, counterexample: on a halted machine with nothing pending
    [set_brk_from_mip_mie] clears [brk] although [iflags.H] is set, and
    on a running machine with the timer interrupt pending and enabled
    [set_brk_from_iflags_H] clears [brk] although [mip & mie] is not
    zero. *)
Lemma set_brk_not_equivalent :
  (brk (set_brk_from_mip_mie halted_state) = false /\
   iflags_H (iflags (set_brk_from_mip_mie halted_state)) = true /\
   ~ (brk (set_brk_from_mip_mie halted_state) = true <->
      break_condition (set_brk_from_mip_mie halted_state) false false)) /\
  (brk (set_brk_from_iflags_H timer_pending_state) = false /\
   Z.land (mip (set_brk_from_iflags_H timer_pending_state))
          (mie (set_brk_from_iflags_H timer_pending_state)) = 128 /\
   ~ (brk (set_brk_from_iflags_H timer_pending_state) = true <->
      break_condition (set_brk_from_iflags_H timer_pending_state)
                      false false)).
Proof.
  split; (split; [reflexivity|split; [reflexivity|]]).
  - intros [_ Hb]. assert (E : false = true); [|discriminate E].
    apply Hb. right. left. reflexivity.
  - intros [_ Hb]. assert (E : false = true); [|discriminate E].
    apply Hb. left. cbn. discriminate.
Qed.

Lemma set_brk_single_source_witness :
  brk (set_brk_from_mip_mie timer_pending_state) = true /\
  break_condition (set_brk_from_mip_mie timer_pending_state) false false.
Proof.
  split; [reflexivity|].
  apply (proj1 (proj2 (proj2 (set_brk_single_source timer_pending_state)))).
  reflexivity.
Defined.

(** C2, counterexample: device 2 names no command; the write succeeds
    and [tohost] keeps the written word instead of reading 0. *)
Lemma htif_write_tohost_unknown_not_zeroed :
  word_bits (2 ^ 57) 63 56 = 2 /\
  word_bits (2 ^ 57) 55 48 = 0 /\
  eval (htif_write_tohost (2 ^ 57)) boot_world = true /\
  tohost (htif (state (exec (htif_write_tohost (2 ^ 57)) boot_world)))
  = 2 ^ 57 /\
  tohost (htif (state (exec (htif_write_tohost (2 ^ 57)) boot_world))) <> 0.
Proof.
  repeat split; try reflexivity. vm_compute. discriminate.
Qed.

Lemma htif_write_tohost_unknown_witness :
  tohost (htif (state (exec (htif_write_tohost (2 ^ 57)) boot_world)))
  = 2 ^ 57 /\
  fromhost (htif (state (exec (htif_write_tohost (2 ^ 57)) boot_world))) = 0.
Proof.
  assert (Hv : is_uint64 (2 ^ 57)) by closed_u64.
  destruct (htif_write_tohost_unknown (2 ^ 57) boot_world Hv)
    as (_ & Ht & Hf & _).
  - intros [E _]. vm_compute in E. discriminate E.
  - intros [E _]. vm_compute in E. discriminate E.
  - intros [E _]. vm_compute in E. discriminate E.
  - split; [exact Ht|exact Hf].
Defined.

Lemma htif_write_tohost_halt_witness :
  iflags_H (iflags (state (exec (htif_write_tohost 1) boot_world))) = true /\
  eval read_htif_tohost (exec (htif_write_tohost 1) boot_world) = 1.
Proof.
  assert (Hv : is_uint64 1) by closed_u64.
  destruct (htif_write_tohost_halt 1 boot_world Hv)
    as (_ & Hh & _ & Ht & _); try reflexivity.
  split; [exact Hh|exact Ht].
Defined.

(** C4, counterexample: when the [write] on standard output fails, the
    putchar write to [tohost] still succeeds, zeroes [tohost] and
    acknowledges in [fromhost], but the byte has not been emitted. *)
Lemma htif_write_tohost_putchar_not_emitted :
  word_bits (2 ^ 56 + 2 ^ 48 + 65) 63 56 = 1 /\
  word_bits (2 ^ 56 + 2 ^ 48 + 65) 55 48 = 1 /\
  Z.land (word_bits (2 ^ 56 + 2 ^ 48 + 65) 47 0) 255 = 65 /\
  eval (htif_write_tohost (2 ^ 56 + 2 ^ 48 + 65)) full_stdout_world = true /\
  tohost (htif (state
    (exec (htif_write_tohost (2 ^ 56 + 2 ^ 48 + 65)) full_stdout_world)))
  = 0 /\
  fromhost (htif (state
    (exec (htif_write_tohost (2 ^ 56 + 2 ^ 48 + 65)) full_stdout_world)))
  = 2 ^ 56 + 2 ^ 48 /\
  stdout (host
    (exec (htif_write_tohost (2 ^ 56 + 2 ^ 48 + 65)) full_stdout_world))
  = [] /\
  ~ In 65 (stdout (host
    (exec (htif_write_tohost (2 ^ 56 + 2 ^ 48 + 65)) full_stdout_world))).
Proof.
  repeat split; try reflexivity. vm_compute. intros [].
Qed.

(** The byte "A" on a standard output that takes it, and on one that
    refuses it. *)
Lemma htif_write_tohost_putchar_witness :
  (stdout (host (exec (htif_write_tohost (2 ^ 56 + 2 ^ 48 + 65)) boot_world))
   = [65] /\
   tohost (htif (state
     (exec (htif_write_tohost (2 ^ 56 + 2 ^ 48 + 65)) boot_world))) = 0 /\
   fromhost (htif (state
     (exec (htif_write_tohost (2 ^ 56 + 2 ^ 48 + 65)) boot_world)))
   = 2 ^ 56 + 2 ^ 48) /\
  (stdout (host
     (exec (htif_write_tohost (2 ^ 56 + 2 ^ 48 + 65)) full_stdout_world))
   = [] /\
   write_results (host
     (exec (htif_write_tohost (2 ^ 56 + 2 ^ 48 + 65)) full_stdout_world))
   = []).
Proof.
  assert (Hv : is_uint64 (2 ^ 56 + 2 ^ 48 + 65)) by closed_u64.
  split.
  - destruct (htif_write_tohost_putchar (2 ^ 56 + 2 ^ 48 + 65) boot_world Hv)
      as (_ & Ho & _ & Ht & _ & Hf & _); try reflexivity.
    split; [exact Ho|]. split; [exact Ht|exact Hf].
  - destruct (htif_write_tohost_putchar (2 ^ 56 + 2 ^ 48 + 65)
                full_stdout_world Hv)
      as (_ & Ho & _ & _ & _ & _ & _ & _ & _ & Hr); try reflexivity.
    split; [exact Ho|exact Hr].
Defined.

(** The getchar write on the interactive console leaves [fromhost] at
    0; the poll that follows delivers the byte [104]. *)
Lemma htif_write_tohost_getchar_witness :
  fromhost (htif (state (exec (htif_write_tohost (2 ^ 56)) console_world)))
  = 0 /\
  tohost (htif (state (exec (htif_write_tohost (2 ^ 56)) console_world)))
  = 0 /\
  fromhost (htif (state
    (exec (poll_console Sample.HTIF_CONSOLE_BUF_SIZE)
          (exec (htif_write_tohost (2 ^ 56)) console_world))))
  = 2 ^ 56 + 104.
Proof.
  assert (Hv : is_uint64 (2 ^ 56)) by closed_u64.
  destruct (htif_write_tohost_getchar Sample.HTIF_INTERACT_DIVISOR
              Sample.HTIF_CONSOLE_BUF_SIZE (2 ^ 56) console_world Hv)
    as ((_ & Ht & Hf & _) & _ & _ & _ & Hpoll & _); try reflexivity.
  split; [exact Hf|]. split; [exact Ht|].
  destruct (Hpoll (exec (htif_write_tohost (2 ^ 56)) console_world)
                  104 [105] []) as (E & _).
  - reflexivity.
  - cbn. lia.
  - reflexivity.
  - unfold Sample.HTIF_CONSOLE_BUF_SIZE. lia.
  - exact E.
Defined.

Lemma htif_access_accepted_witness :
  eval (htif_write Sample.HTIF_CONSOLE_BUF_SIZE 8 7 3) boot_world = true /\
  exec (htif_write Sample.HTIF_CONSOLE_BUF_SIZE 4 7 3) boot_world
  = boot_world.
Proof.
  split.
  - apply (proj1 (proj2 (htif_access_accepted
                           Sample.HTIF_CONSOLE_BUF_SIZE 8 3 7 boot_world))).
    repeat split. right. reflexivity.
  - apply (proj2 (proj2 (proj2 (proj2 (htif_access_accepted
             Sample.HTIF_CONSOLE_BUF_SIZE 4 3 7 boot_world))))).
    reflexivity.
Defined.

(** Page 0 of a halted machine's HTIF range, peeked into a scratch
    buffer full of [0xff]. *)
Lemma htif_peek_pages_witness :
  exists page,
    htif_peek Sample.PMA_PAGE_SIZE 4096 halted_state 0
              (repeat 255 (Z.to_nat 4096))
    = (true, page_scratch page) /\
    length page = Z.to_nat 4096 /\
    le_word (firstn 8 page) = 1 /\
    htif_peek Sample.PMA_PAGE_SIZE 4096 halted_state 4096
              (repeat 255 (Z.to_nat 4096))
    = (false, page_nullptr).
Proof.
  assert (Hp : 16 <= Sample.PMA_PAGE_SIZE)
    by (unfold Sample.PMA_PAGE_SIZE; lia).
  assert (Hl : length (repeat 255 (Z.to_nat 4096))
               = Z.to_nat Sample.PMA_PAGE_SIZE) by apply repeat_length.
  assert (Ht : is_uint64 (tohost (htif halted_state))) by closed_u64.
  assert (Hf : is_uint64 (fromhost (htif halted_state))) by closed_u64.
  destruct (htif_peek_pages Sample.PMA_PAGE_SIZE 4096 0 halted_state
              (repeat 255 (Z.to_nat 4096)) Hp Hl Ht Hf)
    as (_ & H0 & _ & _).
  destruct (H0 eq_refl ltac:(lia)) as (page & E & _ & L & T & _).
  exists page. split; [exact E|]. split; [exact L|]. split; [exact T|].
  apply (proj2 (proj2 (proj2
           (htif_peek_pages Sample.PMA_PAGE_SIZE 4096 4096 halted_state
              (repeat 255 (Z.to_nat 4096)) Hp Hl Ht Hf)))).
  right. lia.
Defined.

Lemma rtc_cycle_to_time_floor_witness :
  rtc_cycle_to_time 1000 = 1000 / 100 /\
  read_clint_mtime timer_pending_state = 10.
Proof.
  assert (Hc : is_uint64 1000) by closed_u64.
  destruct (rtc_cycle_to_time_floor 1000 Hc) as (E & _ & _ & _ & M).
  split; [exact E|]. apply M. reflexivity.
Defined.

(** On the console of [console_world], calls 9 and 19 poll, and they
    are ten calls apart. *)
Lemma interact_rate_limited_witness :
  polls_at Sample.HTIF_INTERACT_DIVISOR Sample.HTIF_CONSOLE_BUF_SIZE
           console_world 9 /\
  polls_at Sample.HTIF_INTERACT_DIVISOR Sample.HTIF_CONSOLE_BUF_SIZE
           console_world 19 /\
  Sample.HTIF_INTERACT_DIVISOR <= Z.of_nat (19 - 9).
Proof.
  assert (P9 : polls_at Sample.HTIF_INTERACT_DIVISOR
                 Sample.HTIF_CONSOLE_BUF_SIZE console_world 9)
    by (vm_compute; reflexivity).
  assert (P19 : polls_at Sample.HTIF_INTERACT_DIVISOR
                  Sample.HTIF_CONSOLE_BUF_SIZE console_world 19)
    by (vm_compute; reflexivity).
  split; [exact P9|]. split; [exact P19|].
  apply (proj1 (interact_rate_limited Sample.HTIF_INTERACT_DIVISOR
                  Sample.HTIF_CONSOLE_BUF_SIZE console_world) 9%nat 19%nat);
    [lia|exact P9|exact P19].
Defined.

Lemma read_iflags_write_iflags_witness :
  read_iflags Sample.IFLAGS_H_SHIFT Sample.IFLAGS_I_SHIFT
    Sample.IFLAGS_PRV_SHIFT
    (write_iflags Sample.IFLAGS_H_SHIFT Sample.IFLAGS_I_SHIFT
       Sample.IFLAGS_PRV_SHIFT boot_state (2 ^ 64 - 1))
  = Z.land (2 ^ 64 - 1)
      (iflags_mask Sample.IFLAGS_H_SHIFT Sample.IFLAGS_I_SHIFT
         Sample.IFLAGS_PRV_SHIFT).
Proof.
  apply (read_iflags_write_iflags Sample.IFLAGS_H_SHIFT
           Sample.IFLAGS_I_SHIFT Sample.IFLAGS_PRV_SHIFT
           boot_state (2 ^ 64 - 1));
    unfold Sample.IFLAGS_H_SHIFT, Sample.IFLAGS_I_SHIFT,
      Sample.IFLAGS_PRV_SHIFT; lia.
Defined.

(** The bound on [PRV] in the round trip is needed: [iflags.PRV] is a
    [uint8_t], and a value beyond two bits is cut by [write_iflags]. *)
Remark write_iflags_read_iflags_wide_PRV :
  iflags_PRV
    (iflags
       (write_iflags Sample.IFLAGS_H_SHIFT Sample.IFLAGS_I_SHIFT
          Sample.IFLAGS_PRV_SHIFT
          (with_iflags (mk_iflags 4 false false) boot_state)
          (read_iflags Sample.IFLAGS_H_SHIFT Sample.IFLAGS_I_SHIFT
             Sample.IFLAGS_PRV_SHIFT
             (with_iflags (mk_iflags 4 false false) boot_state))))
  = 0.
Proof. reflexivity. Qed.

(** ** Concrete runs of the further properties *)

Lemma rtc_time_reached_witness :
  rtc_cycle_to_time (rtc_time_to_cycle 10) = 10 /\
  (10 <= rtc_cycle_to_time 1000 <-> rtc_time_to_cycle 10 <= 1000).
Proof.
  apply (rtc_time_reached 10 1000);
    [lia|vm_compute; reflexivity|closed_u64].
Defined.

Lemma rtc_cycle_round_down_witness :
  rtc_time_to_cycle (rtc_cycle_to_time 1050) = 1050 - 1050 mod 100 /\
  rtc_time_to_cycle (rtc_cycle_to_time 1050) <= 1050.
Proof.
  assert (H1 : is_uint64 1050) by closed_u64.
  assert (H2 : is_uint64 2000) by closed_u64.
  destruct (rtc_cycle_round_down 1050 2000 H1 H2) as (E & L & _).
  split; [exact E|exact L].
Defined.

(** At [2^63] the multiplication overflows and the round trip fails. *)
Lemma rtc_time_round_trip_iff_witness :
  (rtc_cycle_to_time (rtc_time_to_cycle (2 ^ 63)) = 2 ^ 63
   <-> 2 ^ 63 * 100 < 2 ^ 64) /\
  rtc_cycle_to_time (rtc_time_to_cycle (2 ^ 63)) = 0.
Proof.
  split; [|reflexivity].
  apply (rtc_time_round_trip_iff (2 ^ 63)). closed_u64.
Defined.

Lemma read_iflags_injective_witness :
  iflags boot_state = iflags timer_pending_state.
Proof.
  apply (read_iflags_injective Sample.IFLAGS_H_SHIFT Sample.IFLAGS_I_SHIFT
           Sample.IFLAGS_PRV_SHIFT boot_state timer_pending_state);
    unfold Sample.IFLAGS_H_SHIFT, Sample.IFLAGS_I_SHIFT,
      Sample.IFLAGS_PRV_SHIFT; cbn [boot_state timer_pending_state iflags
      iflags_PRV]; try lia; reflexivity.
Defined.

Lemma init_tlb_all_invalid_witness :
  init_tlb live_tlbs
  = mk_tlbs (repeat invalid_tlb_entry TLB_SIZE)
            (repeat invalid_tlb_entry TLB_SIZE)
            (repeat invalid_tlb_entry TLB_SIZE).
Proof.
  apply (init_tlb_all_invalid live_tlbs); apply repeat_length.
Defined.

Lemma poll_console_buffered_witness :
  fromhost (htif (state
    (exec (poll_console Sample.HTIF_CONSOLE_BUF_SIZE) buffered_world)))
  = getchar_word 105 /\
  host (exec (poll_console Sample.HTIF_CONSOLE_BUF_SIZE) buffered_world)
  = host buffered_world.
Proof.
  destruct (poll_console_buffered Sample.HTIF_CONSOLE_BUF_SIZE
              buffered_world) as (E & _ & _ & _ & _ & H & _).
  - reflexivity.
  - cbn. lia.
  - split; [exact E|exact H].
Defined.

Lemma poll_console_reads_witness :
  fromhost (htif (state
    (exec (poll_console Sample.HTIF_CONSOLE_BUF_SIZE) console_world)))
  = getchar_word 104 /\
  m_buf_len (dev
    (exec (poll_console Sample.HTIF_CONSOLE_BUF_SIZE) console_world)) = 2.
Proof.
  destruct (poll_console_reads Sample.HTIF_CONSOLE_BUF_SIZE
              console_world 104 [105] []) as (E & _ & _ & L & _).
  - reflexivity.
  - cbn. lia.
  - reflexivity.
  - unfold Sample.HTIF_CONSOLE_BUF_SIZE. lia.
  - split; [exact E|exact L].
Defined.

(** At the end of the file the [read] returns 0, on an error [-1];
    CTRL+D is handed over both times. *)
Lemma poll_console_eof_witness :
  (eval (host_read_stdin Sample.HTIF_CONSOLE_BUF_SIZE) eof_world = 0 /\
   fromhost (htif (state
     (exec (poll_console Sample.HTIF_CONSOLE_BUF_SIZE) eof_world)))
   = 2 ^ 56 + 4) /\
  (eval (host_read_stdin Sample.HTIF_CONSOLE_BUF_SIZE) failing_stdin_world
   = -1 /\
   fromhost (htif (state
     (exec (poll_console Sample.HTIF_CONSOLE_BUF_SIZE) failing_stdin_world)))
   = 2 ^ 56 + 4).
Proof.
  split.
  - destruct (poll_console_eof Sample.HTIF_CONSOLE_BUF_SIZE eof_world [])
      as (R & _ & E & _).
    + reflexivity.
    + cbn. lia.
    + reflexivity.
    + discriminate.
    + split; [exact R|exact E].
  - destruct (poll_console_eof Sample.HTIF_CONSOLE_BUF_SIZE
                failing_stdin_world [])
      as (R & _ & E & _).
    + reflexivity.
    + cbn. lia.
    + reflexivity.
    + discriminate.
    + split; [exact R|exact E].
Defined.

Lemma poll_console_idle_witness :
  state (exec (poll_console Sample.HTIF_CONSOLE_BUF_SIZE) boot_world)
  = state boot_world /\
  dev (exec (poll_console Sample.HTIF_CONSOLE_BUF_SIZE) boot_world)
  = dev boot_world.
Proof.
  destruct (poll_console_idle Sample.HTIF_CONSOLE_BUF_SIZE boot_world)
    as (E & D & _).
  - reflexivity.
  - cbn. lia.
  - intros data rest. discriminate.
  - split; [exact E|exact D].
Defined.

Lemma interact_n_pending_witness :
  state (interact_n Sample.HTIF_INTERACT_DIVISOR
           Sample.HTIF_CONSOLE_BUF_SIZE 25 pending_world)
  = state pending_world /\
  host (interact_n Sample.HTIF_INTERACT_DIVISOR
          Sample.HTIF_CONSOLE_BUF_SIZE 25 pending_world)
  = host pending_world.
Proof.
  destruct (interact_n_pending Sample.HTIF_INTERACT_DIVISOR
              Sample.HTIF_CONSOLE_BUF_SIZE pending_world 25 eq_refl)
    as (E & H & _).
  split; [exact E|exact H].
Defined.

(** After the poll has handed over "h", the guest's next write to
    [fromhost] leaves "i" there. *)
Lemma getchar_in_order_witness :
  fromhost (htif (state
    (write_fromhost_all Sample.HTIF_CONSOLE_BUF_SIZE [0]
       (exec (poll_console Sample.HTIF_CONSOLE_BUF_SIZE) console_world))))
  = getchar_word 105.
Proof.
  apply (getchar_in_order Sample.HTIF_CONSOLE_BUF_SIZE console_world
           104 [105] [] [0]).
  - reflexivity.
  - reflexivity.
  - cbn. lia.
  - reflexivity.
  - unfold Sample.HTIF_CONSOLE_BUF_SIZE. cbn. lia.
  - cbn. lia.
Defined.

Lemma interact_n_polls_witness :
  Z.of_nat (console_polls
    (interact_n Sample.HTIF_INTERACT_DIVISOR Sample.HTIF_CONSOLE_BUF_SIZE
       25 console_world))
  = Z.of_nat (console_polls console_world)
    + (m_divisor_counter (dev console_world) + Z.of_nat 25)
      / Sample.HTIF_INTERACT_DIVISOR.
Proof.
  apply (interact_n_polls Sample.HTIF_INTERACT_DIVISOR
           Sample.HTIF_CONSOLE_BUF_SIZE console_world 25).
  - reflexivity.
  - unfold Sample.HTIF_INTERACT_DIVISOR. cbn. lia.
Defined.

Lemma buf_inv_kept_witness :
  buf_inv Sample.HTIF_CONSOLE_BUF_SIZE
          (htif_new Sample.HTIF_CONSOLE_BUF_SIZE true).
Proof.
  apply (buf_inv_kept Sample.HTIF_INTERACT_DIVISOR
           Sample.HTIF_CONSOLE_BUF_SIZE true [] boot_world).
  unfold Sample.HTIF_CONSOLE_BUF_SIZE. lia.
Defined.

Lemma getchar_word_decodes_witness :
  tohost_device (getchar_word 104) = 1 /\
  tohost_cmd (getchar_word 104) = 0 /\
  tohost_payload (getchar_word 104) = 104.
Proof.
  apply (getchar_word_decodes 104). lia.
Defined.

Lemma htif_write_then_read_witness :
  eval (htif_read 0 3)
       (exec (htif_write Sample.HTIF_CONSOLE_BUF_SIZE 0 (2 ^ 56) 3) boot_world)
  = Some 0 /\
  eval (htif_read 8 3)
       (exec (htif_write Sample.HTIF_CONSOLE_BUF_SIZE 8 (2 ^ 56) 3) boot_world)
  = Some (2 ^ 56).
Proof.
  assert (Hv : is_uint64 (2 ^ 56)) by closed_u64.
  destruct (htif_write_then_read Sample.HTIF_CONSOLE_BUF_SIZE (2 ^ 56)
              boot_world Hv) as (E0 & E8).
  split; [exact E0|exact (E8 eq_refl)].
Defined.

(** "h", an unknown command and "i": the output is "hi"; on a standard
    output that refuses the first write it is "i". *)
Lemma stdout_in_order_witness :
  stdout (host (write_tohost_all
                  [2 ^ 56 + 2 ^ 48 + 104; 2 ^ 57; 2 ^ 56 + 2 ^ 48 + 105]
                  boot_world))
  = [104; 105] /\
  stdout (host (write_tohost_all
                  [2 ^ 56 + 2 ^ 48 + 104; 2 ^ 57; 2 ^ 56 + 2 ^ 48 + 105]
                  flaky_stdout_world))
  = [105].
Proof.
  assert (Hvs : forall v,
             In v [2 ^ 56 + 2 ^ 48 + 104; 2 ^ 57; 2 ^ 56 + 2 ^ 48 + 105] ->
             is_uint64 v)
    by (intros v [<-|[<-|[<-|[]]]]; closed_u64).
  split.
  - apply (proj1 (proj2 (stdout_in_order _ boot_world Hvs))). intros r [].
  - exact (proj1 (stdout_in_order _ flaky_stdout_world Hvs)).
Defined.

Lemma htif_peek_matches_read_witness :
  htif_peek Sample.PMA_PAGE_SIZE 4096 (state halted_world) 0
            (repeat 255 (Z.to_nat 4096))
  = htif_peek Sample.PMA_PAGE_SIZE 4096 (state halted_world) 0
              (repeat 0 (Z.to_nat 4096)).
Proof.
  assert (Hp : 16 <= Sample.PMA_PAGE_SIZE)
    by (unfold Sample.PMA_PAGE_SIZE; lia).
  assert (Ht : is_uint64 (tohost (htif (state halted_world))))
    by closed_u64.
  assert (Hf : is_uint64 (fromhost (htif (state halted_world))))
    by closed_u64.
  apply (htif_peek_matches_read Sample.PMA_PAGE_SIZE halted_world 4096 0
           (repeat 255 (Z.to_nat 4096)) (repeat 0 (Z.to_nat 4096))
           Hp (repeat_length _ _) (repeat_length _ _) Ht Hf).
Defined.

Lemma htif_write_fromhost_nothing_witness :
  fromhost (htif (state
    (exec (htif_write_fromhost Sample.HTIF_CONSOLE_BUF_SIZE 7) boot_world)))
  = 7.
Proof.
  apply (htif_write_fromhost_nothing Sample.HTIF_CONSOLE_BUF_SIZE 7
           boot_world).
  - cbn. lia.
  - intros data rest. discriminate.
Defined.

Lemma halt_shows_in_read_iflags_witness :
  Z.testbit
    (read_iflags Sample.IFLAGS_H_SHIFT Sample.IFLAGS_I_SHIFT
       Sample.IFLAGS_PRV_SHIFT
       (state (exec (htif_write_tohost 1) boot_world)))
    Sample.IFLAGS_H_SHIFT = true.
Proof.
  assert (Hv : is_uint64 1) by closed_u64.
  apply (halt_shows_in_read_iflags Sample.IFLAGS_H_SHIFT
           Sample.IFLAGS_I_SHIFT Sample.IFLAGS_PRV_SHIFT 1 boot_world);
    try exact Hv; try reflexivity;
    unfold Sample.IFLAGS_H_SHIFT, Sample.IFLAGS_I_SHIFT,
      Sample.IFLAGS_PRV_SHIFT; cbn; lia.
Defined.
